(** * Kafal Cooperative Society: the UPI payment workflow

    A shallow embedding of [routes/payments.js] (generate / confirm /
    history / receipt / status and [updateMemberForPayment]), of the helpers
    of [config/database.js] it runs on ([getOne], [transaction]) and of the
    tables of [database/schema.sql] these routes touch; and of the close
    route of the deposits router, another caller of [transaction].

    Conventions of the embedding.
    - Money is a [DECIMAL(12,2)] column: a value is represented by its number
      of hundredths, so that [rupees 200] is the SQL literal [200].
    - Time is the number of milliseconds of a JavaScript [Date]; one handler
      invocation observes one clock value [now].
    - [Math.random()] is an input of the handler ([rnd]).
    - A string is the UTF-8 text of the JavaScript string.
    - A handler is a function from the stored tables to a JSON response and
      the stored tables afterwards.  Database errors are injected by an
      oracle [fault] that says which statements are refused by the store.
    - [routes/payments.js] imports a function [query] that
      [config/database.js] does not export: the calls of [query] throw. *)

From stdpp Require Import gmap strings list fin_maps pretty.

Open Scope Z_scope.

Module Kafal.

(** ** Tables of [database/schema.sql] *)

Definition rupees (n : Z) : Z := n * 100.

(** [members.status ENUM('active','inactive','suspended','pending_payment')] *)
Inductive member_status := active | inactive | suspended | pending_payment.

(** [upi_payment_requests.purpose ENUM(...)] *)
Inductive purpose_t :=
  membership_fee | share_purchase | loan_repayment | deposit | other.

(** [upi_payment_requests.payment_status ENUM(...)] *)
Inductive payment_status_t := pending | completed | failed | expired.

Global Instance member_status_eq_dec : EqDecision member_status.
Proof. solve_decision. Defined.
Global Instance purpose_eq_dec : EqDecision purpose_t.
Proof. solve_decision. Defined.
Global Instance payment_status_eq_dec : EqDecision payment_status_t.
Proof. solve_decision. Defined.

Record member := Member {
  account_number : string;
  first_name : string;
  last_name : string;
  phone : string;
  balance : Z;
  share_count : Z;
  share_value : Z;
  membership_fees_paid : Z;
  entry_fee_paid : bool;
  welfare_fund_paid : bool;
  building_fund_paid : bool;
  status : member_status
}.

Record payment_request := PaymentRequest {
  request_id : Z;
  member_id : Z;
  transaction_id : string;
  amount : Z;
  purpose : purpose_t;
  description : option string;
  payment_status : payment_status_t;
  payment_method : option string;
  bank_reference_number : option string;
  receipt_generated : bool;
  expires_at : Z;
  paid_at : option Z
}.

(** The JSON object kept in [payment_receipts.receipt_data]: the fields of
    the object literal [receiptData] of the confirm handler and of the
    receipt of [database/sample_admin.sql]. *)
Record receipt_data_t := ReceiptData {
  society_name : string;
  registration_no : string;
  registration_date : string;
  rd_upi_id : string;
  rd_transaction_id : string;
  rd_bank_reference : option string;
  rd_payment_method : string
}.

(** A row of [payment_receipts].  [receipt_data JSON] is read as the driver
    hands it over: the pool of [config/database.js] sets neither
    [jsonStrings] nor a [typeCast], so mysql2 decodes the column, NULL to
    [null] ([None]) and a JSON object to a JavaScript object. *)
Record receipt := Receipt {
  payment_request_id : Z;
  rc_member_id : Z;
  receipt_number : string;
  rc_amount : Z;
  payment_date : Z;
  rc_purpose : string;
  bank_reference : option string;
  receipt_data : option receipt_data_t
}.

(** [transactions.transaction_type ENUM(...)] and [reference_type ENUM(...)] *)
Inductive ledger_type :=
  LDeposit | LWithdrawal | LLoanPayment | LInterestCredit | LFee | LTransfer.
Inductive reference_type_t := RefLoan | RefDeposit | RefGeneral.

(** A row of [transactions] as the schema declares the table. *)
Record ledger_row := LedgerRow {
  lg_transaction_number : string;
  lg_member_id : Z;
  lg_transaction_type : ledger_type;
  lg_amount : Z;
  lg_balance_after : Z;
  lg_reference_type : reference_type_t;
  lg_reference_id : option Z;
  lg_description : string;
  lg_processed_by : option string
}.

(** The tables of the payments router; [next_request_id] is the
    [AUTO_INCREMENT] counter of [upi_payment_requests]. *)
Record db := Db {
  members : gmap Z member;
  upi_payment_requests : list payment_request;
  next_request_id : Z;
  payment_receipts : list receipt;
  transactions : list ledger_row
}.

Global Instance member_eq_dec : EqDecision member.
Proof. solve_decision. Defined.
Global Instance payment_request_eq_dec : EqDecision payment_request.
Proof. solve_decision. Defined.
Global Instance receipt_data_eq_dec : EqDecision receipt_data_t.
Proof. solve_decision. Defined.
Global Instance receipt_eq_dec : EqDecision receipt.
Proof. solve_decision. Defined.

(** [isIn(['membership_fee', 'share_purchase', 'loan_repayment', 'deposit',
    'other'])] together with the ENUM column the string is stored in. *)
Definition parse_purpose (s : string) : option purpose_t :=
  if bool_decide (s = "membership_fee") then Some membership_fee
  else if bool_decide (s = "share_purchase") then Some share_purchase
  else if bool_decide (s = "loan_repayment") then Some loan_repayment
  else if bool_decide (s = "deposit") then Some deposit
  else if bool_decide (s = "other") then Some other
  else None.

(** ** The length of a string for [isLength]

    validator.js, on which express-validator runs [isLength], measures a
    string by its number of UTF-16 code units less the surrogate pairs and
    the variation selectors U+FE0E and U+FE0F: the number of code points
    other than these two.  On the UTF-8 text these are the bytes that do
    not continue a sequence ([10xxxxxx]), without the lead byte of [EF B8
    8E] and [EF B8 8F]. *)

Definition is_continuation_byte (c : Ascii.ascii) : bool :=
  match c with Ascii.Ascii _ _ _ _ _ _ b6 b7 => b7 && negb b6 end.

Definition starts_with_variation_selector (s : string) : bool :=
  match s with
  | String.String c1 (String.String c2 (String.String c3 _)) =>
      Ascii.eqb c1 (Ascii.ascii_of_nat 239)
      && Ascii.eqb c2 (Ascii.ascii_of_nat 184)
      && (Ascii.eqb c3 (Ascii.ascii_of_nat 142)
          || Ascii.eqb c3 (Ascii.ascii_of_nat 143))
  | _ => false
  end.

Fixpoint validator_length (s : string) : nat :=
  match s with
  | String.EmptyString => 0
  | String.String c s' =>
      ((if is_continuation_byte c || starts_with_variation_selector s
        then 0 else 1) + validator_length s')%nat
  end.

(** ** Statements, errors and the handler monad *)

(** The database calls of [routes/payments.js] and of [transaction] that
    go through the pool or a connection of it, in the order of the
    source. *)
Inductive stmt :=
  | GetConnection | BeginTransaction | Commit
  | SelectMemberDetails | SelectPendingRequest | CountRequests
  | SelectReceipt | SelectStatus.

(** The statements that [routes/payments.js] hands to [query], in the order
    of the source. *)
Inductive query_stmt :=
  | InsertRequest | MarkExpired | MarkCompleted | UpdateMember
  | InsertTransaction | InsertReceipt | MarkReceiptGenerated | SelectHistory.

Inductive error :=
  | NotFoundOrProcessed       (* new Error('Payment request not found or already processed') *)
  | HasExpired                (* new Error('Payment request has expired') *)
  | DatabaseError (s : stmt)  (* thrown by the driver *)
  | TypeError (msg : string)  (* a call of undefined, a property of null *)
  | SyntaxError.              (* thrown by JSON.parse *)

(** [error.message].  The text of a driver error is not modelled, and the
    texts of the last two are those of Node 16; of all of them the routes
    show only what the confirm route throws. *)
Definition error_message (e : error) : string :=
  match e with
  | NotFoundOrProcessed => "Payment request not found or already processed"
  | HasExpired => "Payment request has expired"
  | DatabaseError _ => "database error"
  | TypeError msg => msg
  | SyntaxError => "Unexpected token o in JSON at position 1"
  end.

Inductive outcome (A : Type) :=
  | Returned (a : A)
  | Thrown (e : error).
Arguments Returned {A} a.
Arguments Thrown {A} e.

(** An [async] function working on a connection: it returns or throws, and
    leaves the tables as the connection sees them. *)
Definition M (A : Type) : Type := db → outcome A * db.

Definition ret {A} (a : A) : M A := λ d, (Returned a, d).
Definition throw {A} (e : error) : M A := λ d, (Thrown e, d).
Definition bind {A B} (m : M A) (k : A → M B) : M B :=
  λ d, match m d with
       | (Returned a, d') => k a d'
       | (Thrown e, d') => (Thrown e, d')
       end.

Notation "'await' x ':=' m 'in' k" := (bind m (λ x, k))
  (at level 10, x name, m at level 100, k at level 200, only parsing).
Notation "'await_' m 'in' k" := (bind m (λ _, k))
  (at level 10, m at level 100, k at level 200, only parsing).

(** JSON responses: [res.json], [res.status(400).json], [res.status(404).json]
    and [res.status(500).json]. *)
Inductive response (D : Type) :=
  | Json200 (data : D)
  | Json400 (errors : list string)
  | Json404 (message : string)
  | Json500 (message : string).
Arguments Json200 {D} data.
Arguments Json400 {D} errors.
Arguments Json404 {D} message.
Arguments Json500 {D} message.

Record env := Env { now : Z; rnd : Z }.

(** An authenticated request: [req.user.id] and [req.body] / [req.params]. *)
Record request (B : Type) := Request { user_id : Z; body : B }.
Arguments Request {B} user_id body.
Arguments user_id {B} r.
Arguments body {B} r.

(** [const { query, getOne, transaction } = require('../config/database')]:
    [config/database.js] exports [pool], [executeQuery], [getOne],
    [transaction], [testConnection] and [closePool] and nothing called
    [query], so the name is bound to [undefined].  A call [query(sql,
    params, connection)] evaluates its arguments, which are templates and
    arrays of values at hand, and throws the TypeError "query is not a
    function"; no statement is sent. *)
Definition query {A} (sql : query_stmt) : M A :=
  throw (TypeError "query is not a function").

(** [JSON.parse(v)] converts [v] to a string first: [null] gives the text
    [null], which parses to [null]; an object gives the text
    "[object Object]", which is no JSON text. *)
Definition JSON_parse (v : option receipt_data_t) : M (option receipt_data_t) :=
  match v with
  | None => ret None
  | Some _ => throw SyntaxError
  end.

Section Handlers.

Variable fault : stmt → bool.

(** *** [config/database.js] *)

(** [const getOne = async (query, params = []) => { const [rows] = await
    pool.execute(query, params); return rows[0] || null; }]: the third
    argument of the call sites is dropped, the rows are read through the
    pool, whatever connection the caller holds. *)
Definition getOne {A} (s : stmt) (rows : db → list A) (pool : db) : M (option A) :=
  λ conn, if fault s then (Thrown (DatabaseError s), conn)
          else (Returned (head (rows pool)), conn).

(** [transaction]: the callback runs on a fresh connection; [commit] keeps
    what it wrote, [rollback] in the [catch] discards it.  While the
    transaction is open the pool still serves the committed tables. *)
Definition transaction {A} (callback : db → M A) : M A :=
  λ committed,
    if fault GetConnection then (Thrown (DatabaseError GetConnection), committed)
    else if fault BeginTransaction
    then (Thrown (DatabaseError BeginTransaction), committed)
    else match callback committed committed with
         | (Returned a, conn) =>
             if fault Commit then (Thrown (DatabaseError Commit), committed)
             else (Returned a, conn)
         | (Thrown e, _) => (Thrown e, committed)
         end.

(** *** [updateMemberForPayment] *)

(** Every branch of the [switch (purpose)] awaits one [query] with an
    UPDATE of [members]; the INSERT into [transactions] follows it. *)
Definition updateMemberForPayment (paymentRequest : payment_request) : M unit :=
  await_ (match purpose paymentRequest return M unit with
          | membership_fee => query UpdateMember
          | share_purchase =>
              (* Math.floor(amount / 100) *)
              let shareCount := amount paymentRequest `div` rupees 100 in
              query UpdateMember
          | deposit => query UpdateMember
          | loan_repayment => query UpdateMember
          | other => query UpdateMember
          end) in
  query InsertTransaction.

(** The tables the pool serves at this point of a handler that holds no
    connection of its own. *)
Definition current : M db := λ d, (Returned d, d).

(** [try { ... } catch (error) { res.status(500).json(...) }] *)
Definition try_catch {D} (m : M (response D)) (on_error : error → response D)
    : db → response D * db :=
  λ d, match m d with
       | (Returned r, d') => (r, d')
       | (Thrown e, d') => (on_error e, d')
       end.

(** *** [POST /upi/generate] *)

Record generate_body := GenerateBody {
  gb_amount : option Z;          (* [None]: absent or not a number *)
  gb_purpose : string;
  gb_description : option string
}.

Record generate_data := GenerateData {
  gd_request_id : Z;
  gd_transaction_id : string;
  gd_upi_id : string;
  gd_amount : Z;
  gd_purpose : purpose_t;
  gd_description : option string;
  gd_member_name : string;
  gd_account_number : string;
  gd_expires_at : Z
}.

(** [body('amount').isFloat({ min: 1 })] *)
Definition valid_amount (a : option Z) : bool :=
  match a with
  | Some h => bool_decide (rupees 1 ≤ h)
  | None => false
  end.

(** [body('purpose').isIn([...])] *)
Definition valid_purpose (s : string) : bool :=
  bool_decide (is_Some (parse_purpose s)).

(** [body('description').optional().isLength({ max: 500 })] *)
Definition valid_description (o : option string) : bool :=
  match o with
  | None => true
  | Some s => bool_decide (validator_length s ≤ 500)%nat
  end.

Definition validate_generate (b : generate_body) : list string :=
  (if valid_amount (gb_amount b) then [] else ["Amount must be greater than 0"])
  ++ (if valid_purpose (gb_purpose b) then [] else ["Invalid payment purpose"])
  ++ (if valid_description (gb_description b) then [] else ["Description too long"]).

Definition upi_generate (req : request generate_body) (e : env)
    : db → response generate_data * db :=
  match validate_generate (body req) with
  | (_ :: _) as errors => λ d, (Json400 errors, d)
  | [] =>
      let amt := default 0 (gb_amount (body req)) in
      let p := default other (parse_purpose (gb_purpose (body req))) in
      let descr := gb_description (body req) in
      let memberId := user_id req in
      let transactionId := "KCS" +:+ pretty (now e) +:+ pretty (rnd e) in
      let expiresAt := now e + 30 * 60 * 1000 in
      try_catch
        (* INSERT INTO upi_payment_requests (member_id, transaction_id,
           amount, purpose, description, expires_at) VALUES (...) *)
        (await insertId := query InsertRequest in
         await pool := current in
         await member :=
           getOne SelectMemberDetails
             (λ d, option_list (members d !! memberId)) pool in
         match member with
         | None =>
             throw (TypeError "Cannot read properties of null (reading 'first_name')")
         | Some m =>
             ret (Json200
                    (GenerateData insertId transactionId "meghajoshisut30@oksbi"
                       amt p descr
                       (first_name m +:+ " " +:+ last_name m)
                       (account_number m) expiresAt))
         end)
        (λ _, Json500 "Failed to generate UPI payment request")
  end.

(** *** [POST /upi/confirm] *)

Record confirm_body := ConfirmBody {
  cb_transaction_id : option string;
  cb_bank_reference_number : option string;
  cb_payment_method : option string
}.

Record confirm_data := ConfirmData {
  cd_transaction_id : string;
  cd_status : string;
  cd_receipt_generated : bool
}.

Definition validate_confirm (b : confirm_body) : list string :=
  (* body('transaction_id').notEmpty() *)
  (match cb_transaction_id b with
   | Some s => if bool_decide (s = "") then ["Transaction ID is required"] else []
   | None => ["Transaction ID is required"]
   end)
  (* body('bank_reference_number').optional().isLength({ min: 5 }) *)
  ++ (match cb_bank_reference_number b with
      | Some s => if bool_decide (5 ≤ validator_length s)%nat then []
                  else ["Invalid bank reference"]
      | None => []
      end)
  (* body('payment_method').optional().isLength({ max: 50 }) *)
  ++ (match cb_payment_method b with
      | Some s => if bool_decide (validator_length s ≤ 50)%nat then []
                  else ["Payment method too long"]
      | None => []
      end).

(** [SELECT * FROM upi_payment_requests WHERE transaction_id = ? AND
    payment_status = 'pending'] *)
Definition select_pending (tid : string) (d : db) : list payment_request :=
  filter (λ r, transaction_id r = tid ∧ payment_status r = pending)
         (upi_payment_requests d).

(** The callback handed to [transaction]; [pool] is what the pool serves
    while the callback runs. *)
Definition confirm_callback (b : confirm_body) (e : env) (pool : db)
    : M (string * payment_request) :=
  let transaction_id_ := default "" (cb_transaction_id b) in
  await found :=
    getOne SelectPendingRequest (select_pending transaction_id_) pool in
  match found with
  | None => throw NotFoundOrProcessed
  | Some paymentRequest =>
      (* new Date() > new Date(paymentRequest.expires_at) *)
      if bool_decide (expires_at paymentRequest < now e) then
        (* UPDATE upi_payment_requests SET payment_status = 'expired' *)
        await_ (query MarkExpired : M unit) in
        throw HasExpired
      else
        (* UPDATE upi_payment_requests SET payment_status = 'completed',
           payment_method = ?, bank_reference_number = ?, paid_at = NOW() *)
        await_ (query MarkCompleted : M unit) in
        await_ updateMemberForPayment paymentRequest in
        let receiptNumber := "RCP" +:+ pretty (now e) +:+ pretty (rnd e) in
        (* INSERT INTO payment_receipts (...) *)
        await_ (query InsertReceipt : M unit) in
        (* UPDATE upi_payment_requests SET receipt_generated = TRUE *)
        await_ (query MarkReceiptGenerated : M unit) in
        ret (receiptNumber, paymentRequest)
  end.

Definition confirm_error (err : error) : response confirm_data :=
  (* message: error.message || 'Failed to confirm payment' *)
  Json500 (if bool_decide (error_message err = "")
           then "Failed to confirm payment" else error_message err).

Definition upi_confirm (req : request confirm_body) (e : env)
    : db → response confirm_data * db :=
  match validate_confirm (body req) with
  | (_ :: _) as errors => λ d, (Json400 errors, d)
  | [] =>
      try_catch
        (await_ transaction (confirm_callback (body req) e) in
         ret (Json200 (ConfirmData (default "" (cb_transaction_id (body req)))
                         "completed" true)))
        confirm_error
  end.

(** *** [GET /history] *)

Record history_row := HistoryRow {
  hr_transaction_id : string;
  hr_amount : Z;
  hr_purpose : purpose_t;
  hr_description : option string;
  hr_payment_status : payment_status_t;
  hr_payment_method : option string;
  hr_bank_reference_number : option string;
  hr_paid_at : option Z;
  hr_created_at : Z;
  hr_receipt_number : option string    (* NULL without a receipt *)
}.

(** [req.query]: the numeric parameters [page] and [limit], when given. *)
Record history_query := HistoryQuery {
  hq_page : option Z;
  hq_limit : option Z
}.

Record pagination := Pagination {
  pg_page : Z;
  pg_limit : Z;
  pg_total : Z;
  pg_pages : option Z      (* [None]: not a finite number, sent as null *)
}.

Record history_data := HistoryData {
  hd_payments : list history_row;
  hd_pagination : pagination
}.

(** [Math.ceil(a / b)] for [b ≠ 0] *)
Definition ceil_div (a b : Z) : Z := - ((- a) `div` b).

(** [SELECT COUNT( * ) as count FROM upi_payment_requests WHERE member_id = ?] *)
Definition count_requests (memberId : Z) (d : db) : Z :=
  Z.of_nat (length (filter (λ upr, member_id upr = memberId)
                      (upi_payment_requests d))).

Definition get_history (req : request history_query)
    : db → response history_data * db :=
  let memberId := user_id req in
  (* const { page = 1, limit = 10 } = req.query *)
  let page := default 1 (hq_page (body req)) in
  let limit := default 10 (hq_limit (body req)) in
  let offset := (page - 1) * limit in
  try_catch
    (* SELECT ... FROM upi_payment_requests upr LEFT JOIN payment_receipts pr
       ... WHERE upr.member_id = ? ORDER BY upr.created_at DESC
       LIMIT ? OFFSET ? *)
    (await payments := query SelectHistory in
     await pool := current in
     await total := getOne CountRequests (λ d, [count_requests memberId d]) pool in
     match total with
     | None => throw (TypeError "Cannot read properties of null (reading 'count')")
     | Some count =>
         ret (Json200
                (HistoryData payments
                   (Pagination page limit count
                      (if bool_decide (limit = 0) then None
                       else Some (ceil_div count limit)))))
     end)
    (λ _, Json500 "Failed to retrieve payment history").

(** *** [GET /receipt/:receipt_number] *)

Record receipt_row := ReceiptRow {
  rr_receipt : receipt;            (* pr.* *)
  rr_first_name : string;
  rr_last_name : string;
  rr_account_number : string;
  rr_phone : string;
  rr_transaction_id : string;
  rr_purpose : purpose_t;          (* upr.purpose, under the key of pr.purpose *)
  rr_description : option string
}.

(** [FROM payment_receipts pr JOIN members m ON pr.member_id = m.id JOIN
    upi_payment_requests upr ON pr.payment_request_id = upr.request_id WHERE
    pr.receipt_number = ? AND pr.member_id = ?] *)
Definition select_receipt (receipt_number_ : string) (memberId : Z) (d : db)
    : list receipt_row :=
  pr ← filter (λ pr, receipt_number pr = receipt_number_
                     ∧ rc_member_id pr = memberId) (payment_receipts d);
  m ← option_list (members d !! rc_member_id pr);
  upr ← filter (λ upr, request_id upr = payment_request_id pr)
               (upi_payment_requests d);
  [ReceiptRow pr (first_name m) (last_name m) (account_number m) (phone m)
      (transaction_id upr) (purpose upr) (description upr)].

(** [{ ...receipt, receipt_data: parsed }] *)
Definition with_receipt_data (row : receipt_row)
    (parsed : option receipt_data_t) : receipt_row :=
  let pr := rr_receipt row in
  ReceiptRow
    (Receipt (payment_request_id pr) (rc_member_id pr) (receipt_number pr)
       (rc_amount pr) (payment_date pr) (rc_purpose pr) (bank_reference pr)
       parsed)
    (rr_first_name row) (rr_last_name row) (rr_account_number row)
    (rr_phone row) (rr_transaction_id row) (rr_purpose row)
    (rr_description row).

Definition get_receipt (req : request string)
    : db → response receipt_row * db :=
  let receipt_number_ := body req in
  let memberId := user_id req in
  try_catch
    (await pool := current in
     await found :=
       getOne SelectReceipt (select_receipt receipt_number_ memberId) pool in
     match found with
     | None => ret (Json404 "Receipt not found")
     | Some receipt =>
         await parsed := JSON_parse (receipt_data (rr_receipt receipt)) in
         ret (Json200 (with_receipt_data receipt parsed))
     end)
    (λ _, Json500 "Failed to retrieve receipt").

(** *** [GET /status/:transaction_id] *)

Record status_row := StatusRow {
  sr_transaction_id : string;
  sr_amount : Z;
  sr_purpose : purpose_t;
  sr_payment_status : payment_status_t;
  sr_expires_at : Z;
  sr_paid_at : option Z;
  sr_receipt_generated : bool
}.

(** [SELECT transaction_id, amount, purpose, payment_status, expires_at,
    paid_at, receipt_generated FROM upi_payment_requests WHERE
    transaction_id = ? AND member_id = ?] *)
Definition select_status (tid : string) (memberId : Z) (d : db)
    : list status_row :=
  (λ r, StatusRow (transaction_id r) (amount r) (purpose r) (payment_status r)
          (expires_at r) (paid_at r) (receipt_generated r))
  <$> filter (λ r, transaction_id r = tid ∧ member_id r = memberId)
             (upi_payment_requests d).

Definition get_status (req : request string)
    : db → response status_row * db :=
  let transaction_id_ := body req in
  let memberId := user_id req in
  try_catch
    (await pool := current in
     await payment :=
       getOne SelectStatus (select_status transaction_id_ memberId) pool in
     match payment with
     | None => ret (Json404 "Payment request not found")
     | Some row => ret (Json200 row)
     end)
    (λ _, Json500 "Failed to check payment status").

End Handlers.

(** The store refuses nothing. *)
Definition no_fault : stmt → bool := λ _, false.

(** ** Integrity constraints of the schema *)

(** [transaction_id VARCHAR(50) UNIQUE NOT NULL] *)
Definition unique_transaction_ids (d : db) : Prop :=
  NoDup (transaction_id <$> upi_payment_requests d).

(** The two [FOREIGN KEY]s of [payment_receipts], and [request_id] as the
    primary key of [upi_payment_requests]. *)
Definition receipts_reference (d : db) : Prop :=
  Forall (λ pr, is_Some (members d !! rc_member_id pr)
                ∧ payment_request_id pr ∈ request_id <$> upi_payment_requests d)
         (payment_receipts d).

(** ** Sample data: the rows of [database/sample_admin.sql] *)

Definition sample_member_1 : member :=
  Member "KCS2025001" "Devender" "Raturi" "9599413311"
    0 20 (rupees 2000) (rupees 2400) true true true active.

Definition sample_member_2 : member :=
  Member "KCS2025002" "Test" "Member" "+977-9800000004"
    0 2 (rupees 200) 0 false false false pending_payment.

(** The completed request of member 1 and its receipt; [NOW()] is taken to
    be the time 1692611234567. *)
Definition sample_completed_request : payment_request :=
  PaymentRequest 1 1 "KCS1692611234567" (rupees 2400) membership_fee
    (Some "Complete membership fees payment") completed (Some "UPI")
    (Some "UPI123456789") true (1692611234567 + 30 * 60 * 1000)
    (Some 1692611234567).

Definition sample_receipt : receipt :=
  Receipt 1 1 "RCP1692611234567890" (rupees 2400) 1692611234567
    "membership_fee" (Some "UPI123456789")
    (Some (ReceiptData "KAFAL Co-operative Urban Thrift & Credit Society Ltd."
             "10405(E)" "03.05.2016" "meghajoshisut30@oksbi"
             "KCS1692611234567" (Some "UPI123456789") "UPI")).

Definition sample_db : db :=
  Db {[ 1 := sample_member_1; 2 := sample_member_2 ]}
     [sample_completed_request] 2 [sample_receipt] [].

(** A pending request of member 2, as the INSERT of generate would have
    stored it at time 1000 with random suffix 7: 250.00 for shares, to be
    paid by time 1801000. *)
Definition sample_pending_request : payment_request :=
  PaymentRequest 2 2 "KCS10007" (rupees 250) share_purchase None
    pending None None false 1801000 None.

Definition sample_pending_db : db :=
  Db (members sample_db) [sample_completed_request; sample_pending_request] 3
     (payment_receipts sample_db) [].

(** Two pending membership-fee requests of member 2, of 100.00 each. *)
Definition sample_fee_request (rid : Z) (tid : string) : payment_request :=
  PaymentRequest rid 2 tid (rupees 100) membership_fee None
    pending None None false 1801000 None.

Definition sample_fees_db : db :=
  Db (members sample_db)
     [sample_completed_request; sample_fee_request 2 "KCS10007";
      sample_fee_request 3 "KCS30008"] 4
     (payment_receipts sample_db) [].

Definition sample_request (amt : Z) (p : string) : request generate_body :=
  Request 2 (GenerateBody (Some amt) p None).

Definition sample_confirm (caller : Z) (tid : string) : request confirm_body :=
  Request caller (ConfirmBody (Some tid) None None).

(** The five purposes of the [isIn] validator. *)
Definition purposes : list string :=
  ["membership_fee"; "share_purchase"; "loan_repayment"; "deposit"; "other"].

(** A receipt with number [num] that belongs to member [mid] is stored. *)
Definition owned_receipt (num : string) (mid : Z) (d : db) : Prop :=
  Exists (λ pr, receipt_number pr = num ∧ rc_member_id pr = mid)
         (payment_receipts d).

(** ** Two confirm calls in flight *)

(** The handlers are [async] functions: a second request is served while
    the first one waits at an [await].  [confirm_race] is the schedule in
    which both callbacks have had their [getOne] answered by the pool from
    the committed tables [d] before either has gone on; the first callback
    then runs to its commit or rollback, and the second continues on the
    tables the first has left committed.  (The lookup takes no lock.) *)
Definition confirm_race (fault : stmt → bool)
    (b1 : confirm_body) (e1 : env) (b2 : confirm_body) (e2 : env) (d : db)
    : outcome (string * payment_request) * outcome (string * payment_request)
      * db :=
  let run1 := confirm_callback fault b1 e1 d d in
  let d1 := match run1.1 with Returned _ => run1.2 | Thrown _ => d end in
  let run2 := confirm_callback fault b2 e2 d d1 in
  let d2 := match run2.1 with Returned _ => run2.2 | Thrown _ => d1 end in
  (run1.1, run2.1, d2).

(** ** Sequences of requests *)

(** One request to the payments router, with the failures the store shows
    while it is served. *)
Inductive call :=
  | CallGenerate (fault : stmt → bool) (req : request generate_body) (e : env)
  | CallConfirm (fault : stmt → bool) (req : request confirm_body) (e : env)
  | CallHistory (fault : stmt → bool) (req : request history_query)
  | CallReceipt (fault : stmt → bool) (req : request string)
  | CallStatus (fault : stmt → bool) (req : request string).

(** The tables after the request has been answered. *)
Definition serve (d : db) (c : call) : db :=
  match c with
  | CallGenerate fault req e => (upi_generate fault req e d).2
  | CallConfirm fault req e => (upi_confirm fault req e d).2
  | CallHistory fault req => (get_history fault req d).2
  | CallReceipt fault req => (get_receipt fault req d).2
  | CallStatus fault req => (get_status fault req d).2
  end.

(** Requests served one after the other. *)
Definition serve_all (cs : list call) (d : db) : db := foldl serve d cs.

(** The tables after a sequence of confirm calls, each with the failures
    the store shows while it is served. *)
Definition confirm_all
    (cs : list ((stmt → bool) * request confirm_body * env)) (d : db) : db :=
  foldl (λ d c, (upi_confirm c.1.1 c.1.2 c.2 d).2) d cs.

(** ** The deposits router: [PUT /:id/close]

    The second router of the file works on the tables [deposits],
    [transactions] and [audit_logs].  It issues its statements itself,
    [connection.execute] inside [transaction] and [executeQuery]
    outside. *)

(** [deposits.deposit_type ENUM(...)] *)
Inductive deposit_type_t := FixedDeposit | RecurringDeposit | Savings | Current.

(** [deposits.status ENUM('Active', 'Matured', 'Premature Closure', 'Closed')] *)
Inductive deposit_status_t := Active | Matured | PrematureClosure | Closed.

Global Instance deposit_type_eq_dec : EqDecision deposit_type_t.
Proof. solve_decision. Defined.
Global Instance deposit_status_eq_dec : EqDecision deposit_status_t.
Proof. solve_decision. Defined.

Record deposit_row := DepositRow {
  deposit_id : Z;
  deposit_number : string;
  dp_member_id : Z;
  deposit_type : deposit_type_t;
  principal_amount : Z;
  interest_rate : Z;
  tenure_months : option Z;
  maturity_amount : option Z;
  deposit_date : Z;
  maturity_date : option Z;
  dp_status : deposit_status_t;
  auto_renewal : bool;
  current_balance : Z;
  last_interest_credited : option Z;
  dp_processed_by : option string;
  dp_updated_at : Z
}.

(** A row of [audit_logs]; [al_new_values] is the object given to
    [JSON.stringify], here status and closure reason. *)
Record audit_row := AuditRow {
  al_user_type : string;
  al_user_id : string;
  al_action : string;
  al_table_name : string;
  al_record_id : Z;
  al_new_values : option (string * string);
  al_ip_address : string;
  al_user_agent : option string
}.

Record bank := Bank {
  deposits : list deposit_row;
  ledger : list ledger_row;
  audit_logs : list audit_row
}.

(** The database calls of the close route, in the order of the source. *)
Inductive dstmt :=
  | DGetConnection | DBeginTransaction | DCommit
  | SelectActiveDeposit | UpdateDepositStatus | InsertWithdrawal
  | InsertAuditLog.

Global Instance dstmt_eq_dec : EqDecision dstmt.
Proof. solve_decision. Defined.

Inductive dep_error :=
  | DepositNotActive            (* new Error('Deposit not found or not active') *)
  | DepositDatabaseError (s : dstmt)
  | UndefinedBindParameter.     (* thrown by mysql2 before anything is sent *)

Definition dep_error_message (e : dep_error) : string :=
  match e with
  | DepositNotActive => "Deposit not found or not active"
  | DepositDatabaseError _ => "database error"
  | UndefinedBindParameter =>
      "Bind parameters must not contain undefined. To pass SQL NULL specify JS null"
  end.

(** An [async] function on the tables of the deposits router: it throws
    ([inl]) or returns ([inr]). *)
Definition DM (A : Type) : Type := bank → (dep_error + A) * bank.

Definition dret {A} (a : A) : DM A := λ b, (inr a, b).
Definition dthrow {A} (e : dep_error) : DM A := λ b, (inl e, b).
Definition dbind {A B} (m : DM A) (k : A → DM B) : DM B :=
  λ b, match m b with
       | (inr a, b') => k a b'
       | (inl e, b') => (inl e, b')
       end.

Section Deposits.

Variable dfault : dstmt → bool.

(** [connection.execute(sql, params)] and, outside a transaction,
    [executeQuery(sql, params)], which runs [pool.execute] and rethrows:
    the statement works on the tables, or the driver throws; [None] is a
    violated constraint. *)
Definition execute {A} (s : dstmt) (run : bank → option (A * bank)) : DM A :=
  λ b, if dfault s then (inl (DepositDatabaseError s), b)
       else match run b with
            | Some (a, b') => (inr a, b')
            | None => (inl (DepositDatabaseError s), b)
            end.

(** [transaction] of [config/database.js] on these tables. *)
Definition dep_transaction {A} (callback : DM A) : DM A :=
  λ committed,
    if dfault DGetConnection
    then (inl (DepositDatabaseError DGetConnection), committed)
    else if dfault DBeginTransaction
    then (inl (DepositDatabaseError DBeginTransaction), committed)
    else match callback committed with
         | (inr a, conn) =>
             if dfault DCommit
             then (inl (DepositDatabaseError DCommit), committed)
             else (inr a, conn)
         | (inl e, _) => (inl e, committed)
         end.

Record close_request := CloseRequest {
  cr_admin_id : string;                 (* req.admin.admin_id *)
  cr_deposit_id : Z;                    (* req.params.id *)
  cr_closure_reason : option string;    (* req.body.closure_reason *)
  cr_ip : string;                       (* req.ip *)
  cr_user_agent : option string         (* req.get('User-Agent'), [None]: undefined *)
}.

(** [body('closure_reason').isLength({ min: 10, max: 500 })] *)
Definition valid_closure_reason (o : option string) : bool :=
  match o with
  | Some s => bool_decide (10 ≤ validator_length s ≤ 500)%nat
  | None => false
  end.

(** [SELECT * FROM deposits WHERE deposit_id = ? AND status = "Active"] *)
Definition select_active_deposit (depositId : Z) (b : bank) : list deposit_row :=
  filter (λ dp, deposit_id dp = depositId ∧ dp_status dp = Active) (deposits b).

(** [SET status = "Premature Closure", updated_at = NOW()] *)
Definition mark_premature_closure (t : Z) (dp : deposit_row) : deposit_row :=
  DepositRow (deposit_id dp) (deposit_number dp) (dp_member_id dp)
    (deposit_type dp) (principal_amount dp) (interest_rate dp)
    (tenure_months dp) (maturity_amount dp) (deposit_date dp)
    (maturity_date dp) PrematureClosure (auto_renewal dp) (current_balance dp)
    (last_interest_credited dp) (dp_processed_by dp) t.

(** [UPDATE deposits SET ... WHERE deposit_id = ?] *)
Definition sql_close_deposit (t : Z) (depositId : Z) (b : bank) : bank :=
  Bank ((λ dp, if bool_decide (deposit_id dp = depositId)
               then mark_premature_closure t dp else dp) <$> deposits b)
       (ledger b) (audit_logs b).

(** [INSERT INTO transactions (...)], with the [UNIQUE] transaction number
    of the schema. *)
Definition sql_insert_ledger (row : ledger_row) (b : bank)
    : option (unit * bank) :=
  if bool_decide (lg_transaction_number row
                    ∉ lg_transaction_number <$> ledger b)
  then Some (tt, Bank (deposits b) (ledger b ++ [row]) (audit_logs b))
  else None.

(** [INSERT INTO audit_logs (...)] *)
Definition sql_insert_audit (row : audit_row) (b : bank) : bank :=
  Bank (deposits b) (ledger b) (audit_logs b ++ [row]).

(** The callback handed to [transaction] by the close route. *)
Definition close_callback (req : close_request) (t : Z) : DM unit :=
  let depositId := cr_deposit_id req in
  let closure_reason := default "" (cr_closure_reason req) in
  dbind (execute SelectActiveDeposit
           (λ b, Some (select_active_deposit depositId b, b)))
    (λ deposit,
       match deposit with
       | [] => dthrow DepositNotActive
       | depositData :: _ =>
           dbind (execute UpdateDepositStatus
                    (λ b, Some (tt, sql_close_deposit t depositId b)))
             (λ _,
                execute InsertWithdrawal
                  (sql_insert_ledger
                     (LedgerRow ("TXN" +:+ pretty t) (dp_member_id depositData)
                        LWithdrawal (current_balance depositData) 0 RefDeposit
                        (Some depositId)
                        ("Premature closure - " +:+ closure_reason)
                        (Some (cr_admin_id req)))))
       end).

(** The audit entry, [executeQuery] after the transaction.  Its last
    parameter is [req.get('User-Agent')]: without that header it is
    [undefined], and [pool.execute] throws on an [undefined] parameter. *)
Definition close_audit (req : close_request) : DM unit :=
  match cr_user_agent req with
  | None => dthrow UndefinedBindParameter
  | Some user_agent =>
      execute InsertAuditLog
        (λ b, Some (tt,
           sql_insert_audit
             (AuditRow "Admin" (cr_admin_id req) "CLOSE_DEPOSIT" "deposits"
                (cr_deposit_id req)
                (Some ("Premature Closure", default "" (cr_closure_reason req)))
                (cr_ip req) (Some user_agent)) b))
  end.

Definition close_deposit (req : close_request) (t : Z)
    : bank → response string * bank :=
  if valid_closure_reason (cr_closure_reason req) then
    λ b,
      match
        dbind (dep_transaction (close_callback req t))
          (λ _, dbind (close_audit req)
                  (λ _, dret (Json200 "Deposit closed successfully"))) b
      with
      | (inr r, b') => (r, b')
      | (inl err, b') =>
          (* message: error.message || 'Failed to close deposit' *)
          (Json500 (if bool_decide (dep_error_message err = "")
                    then "Failed to close deposit"
                    else dep_error_message err), b')
      end
  else λ b, (Json400 ["Invalid value"], b).

End Deposits.

(** The store of the deposits router refuses nothing. *)
Definition no_dfault : dstmt → bool := λ _, false.

(** The tables after a successful closure of the deposit [dp] found active:
    the status update and the withdrawal record. *)
Definition closed_effect (req : close_request) (t : Z) (dp : deposit_row)
    (b : bank) : bank :=
  Bank (deposits (sql_close_deposit t (cr_deposit_id req) b))
       (ledger b ++
          [LedgerRow ("TXN" +:+ pretty t) (dp_member_id dp) LWithdrawal
             (current_balance dp) 0 RefDeposit (Some (cr_deposit_id req))
             ("Premature closure - " +:+ default "" (cr_closure_reason req))
             (Some (cr_admin_id req))])
       (audit_logs b).

Definition close_audit_row (req : close_request) : audit_row :=
  AuditRow "Admin" (cr_admin_id req) "CLOSE_DEPOSIT" "deposits"
    (cr_deposit_id req)
    (Some ("Premature Closure", default "" (cr_closure_reason req)))
    (cr_ip req) (cr_user_agent req).

(** A savings deposit of 5000.00 of member 1 and a closed one. *)
Definition sample_bank : bank :=
  Bank [DepositRow 1 "SAV001" 1 Savings (rupees 5000) 400 None None 0 None
          Active false (rupees 5200) None None 0;
        DepositRow 2 "FD002" 2 FixedDeposit (rupees 10000) 850 (Some 12) None
          0 None Closed false 0 None None 0]
       [] [].

(** A close request sent by a browser, and one sent without a [User-Agent]
    header. *)
Definition sample_close (depositId : Z) : close_request :=
  CloseRequest "ADM001" depositId (Some "member asked to close") "127.0.0.1"
    (Some "Mozilla/5.0").

Definition sample_close_no_agent (depositId : Z) : close_request :=
  CloseRequest "ADM001" depositId (Some "member asked to close") "127.0.0.1"
    None.


(** ** How the helpers run *)

Lemma updateMemberForPayment_throws r d :
  updateMemberForPayment r d
    = (Thrown (TypeError "query is not a function"), d).
Proof. unfold updateMemberForPayment, bind, query, throw. by destruct (purpose r). Qed.

(** The callback never returns: it throws at the lookup, for a request that
    is not pending, or at its first [query], and has written nothing. *)
Lemma confirm_callback_thrown (fault : stmt → bool) b e pool d :
  ∃ err, confirm_callback fault b e pool d = (Thrown err, d)
    ∧ (fault SelectPendingRequest = false →
       err = match head (select_pending (default "" (cb_transaction_id b)) pool) with
             | None => NotFoundOrProcessed
             | Some _ => TypeError "query is not a function"
             end).
Proof.
  unfold confirm_callback, bind, getOne, query, throw.
  destruct (fault SelectPendingRequest);
    [eexists; split; [reflexivity|done]|].
  destruct (head _) as [r|]; [|eexists; split; [reflexivity|done]].
  case_bool_decide; eexists; (split; [reflexivity|done]).
Qed.

(** What [transaction] and the [try]/[catch] of the handler make of the
    callback. *)
Lemma upi_confirm_valid (fault : stmt → bool) req e d :
  validate_confirm (body req) = [] →
  ∃ msg, upi_confirm fault req e d = (Json500 msg, d)
    ∧ ((∀ s, fault s = false) →
       msg = match head (select_pending
                           (default "" (cb_transaction_id (body req))) d) with
             | None => "Payment request not found or already processed"
             | Some _ => "query is not a function"
             end).
Proof.
  intros Hv. unfold upi_confirm. rewrite Hv.
  unfold try_catch, bind, transaction, confirm_error.
  destruct (fault GetConnection) eqn:F1;
    [eexists; split; [reflexivity|intros Hf; by rewrite Hf in F1]|].
  destruct (fault BeginTransaction) eqn:F2;
    [eexists; split; [reflexivity|intros Hf; by rewrite Hf in F2]|].
  destruct (confirm_callback_thrown fault (body req) e d d) as (err & -> & Herr).
  eexists; split; [reflexivity|]. intros Hf. rewrite (Herr (Hf _)).
  by destruct (head _).
Qed.

Lemma upi_confirm_400 (fault : stmt → bool) req e d :
  validate_confirm (body req) ≠ [] →
  upi_confirm fault req e d = (Json400 (validate_confirm (body req)), d).
Proof.
  intros H. unfold upi_confirm.
  destruct (validate_confirm _); [by destruct H|reflexivity].
Qed.

Lemma upi_confirm_unchanged (fault : stmt → bool) req e d :
  (upi_confirm fault req e d).2 = d.
Proof.
  destruct (decide (validate_confirm (body req) = [])) as [Hv|Hv].
  - by destruct (upi_confirm_valid fault req e d Hv) as (msg & -> & _).
  - by rewrite upi_confirm_400.
Qed.

Lemma upi_confirm_not_200 (fault : stmt → bool) req e d data :
  (upi_confirm fault req e d).1 ≠ Json200 data.
Proof.
  destruct (decide (validate_confirm (body req) = [])) as [Hv|Hv].
  - by destruct (upi_confirm_valid fault req e d Hv) as (msg & -> & _).
  - by rewrite upi_confirm_400.
Qed.

Lemma upi_confirm_valid_not_400 (fault : stmt → bool) req e d errors :
  validate_confirm (body req) = [] →
  (upi_confirm fault req e d).1 ≠ Json400 errors.
Proof.
  intros Hv. by destruct (upi_confirm_valid fault req e d Hv) as (msg & -> & _).
Qed.

Lemma validate_generate_nil b :
  validate_generate b = [] ↔
  valid_amount (gb_amount b) = true ∧ valid_purpose (gb_purpose b) = true
  ∧ valid_description (gb_description b) = true.
Proof.
  unfold validate_generate.
  destruct (valid_amount _), (valid_purpose _), (valid_description _);
    cbn; (split; [intros H; try discriminate H; by split_and!
                 |intros (? & ? & ?); congruence]).
Qed.

Lemma upi_generate_400 (fault : stmt → bool) req e d :
  validate_generate (body req) ≠ [] →
  upi_generate fault req e d = (Json400 (validate_generate (body req)), d).
Proof.
  intros H. unfold upi_generate.
  destruct (validate_generate _); [by destruct H|reflexivity].
Qed.

(** A request that passes the validators stops at the [query] of the
    INSERT. *)
Lemma upi_generate_valid (fault : stmt → bool) req e d :
  validate_generate (body req) = [] →
  upi_generate fault req e d
    = (Json500 "Failed to generate UPI payment request", d).
Proof. intros Hv. unfold upi_generate. by rewrite Hv. Qed.

Lemma upi_generate_unchanged (fault : stmt → bool) req e d :
  (upi_generate fault req e d).2 = d.
Proof.
  destruct (decide (validate_generate (body req) = [])) as [Hv|Hv].
  - by rewrite upi_generate_valid.
  - by rewrite upi_generate_400.
Qed.

Lemma get_receipt_unchanged (fault : stmt → bool) req d :
  (get_receipt fault req d).2 = d.
Proof.
  unfold get_receipt, try_catch, bind, current, getOne, ret, JSON_parse, throw.
  destruct (fault SelectReceipt); [done|]. cbn.
  destruct (head _) as [row|]; [|done]. by destruct (receipt_data _).
Qed.

Lemma get_status_unchanged (fault : stmt → bool) req d :
  (get_status fault req d).2 = d.
Proof.
  unfold get_status, try_catch, bind, current, getOne, ret.
  destruct (fault SelectStatus); [done|]. cbn. by destruct (head _).
Qed.

Lemma serve_unchanged d c : serve d c = d.
Proof.
  destruct c; cbn.
  - apply upi_generate_unchanged.
  - apply upi_confirm_unchanged.
  - done.
  - apply get_receipt_unchanged.
  - apply get_status_unchanged.
Qed.

Lemma confirm_all_unchanged cs d : confirm_all cs d = d.
Proof.
  unfold confirm_all. revert d.
  induction cs as [|c cs IH]; intros d; [done|].
  cbn. by rewrite upi_confirm_unchanged.
Qed.

(** ** Membership fees *)

(** C1 (what the code does).  [updateMemberForPayment] throws at its first
    [query] and leaves the member row as it is; the confirm handler does
    not even reach it.  So no membership-fee payment is ever confirmed or
    applied: after any sequence of confirm calls every member row, with
    its accumulated fees, its three fee flags and its status, is the one
    of before, and a further confirm call is again answered with a
    failure. *)
Theorem C1_fee_payments_are_never_applied
    (cs : list ((stmt → bool) * request confirm_body * env)) (d : db)
    (r : payment_request) :
  updateMemberForPayment r d
    = (Thrown (TypeError "query is not a function"), d)
  ∧ members (confirm_all cs d) = members d
  ∧ (∀ fault req e data,
       (upi_confirm fault req e (confirm_all cs d)).1 ≠ Json200 data).
Proof.
  split_and!.
  - apply updateMemberForPayment_throws.
  - by rewrite confirm_all_unchanged.
  - intros fault req e data. apply upi_confirm_not_200.
Qed.

(** Member 2 has paid no fee and has two pending membership-fee requests of
    100.00 each.  Both are confirmed in time, the store works: both calls
    are answered with a 500, the accumulated fees are still 0 and the
    entry-fee flag is still false. *)
Example two_fee_payments_of_100 :
  let c1 := upi_confirm no_fault (sample_confirm 2 "KCS10007") (Env 2000 5)
              sample_fees_db in
  let c2 := upi_confirm no_fault (sample_confirm 2 "KCS30008") (Env 4000 6) c1.2 in
  c1.1 = Json500 "query is not a function"
  ∧ c2.1 = Json500 "query is not a function"
  ∧ (λ m, (membership_fees_paid m, entry_fee_paid m, status m))
      <$> members c2.2 !! 2 = Some (0, false, pending_payment)
  ∧ payment_status <$> upi_payment_requests c2.2
    = [completed; pending; pending].
Proof. by vm_compute. Qed.

(** ** Atomicity of confirm *)

Lemma head_select_pending tid d r :
  head (select_pending tid d) = Some r →
  r ∈ upi_payment_requests d ∧ transaction_id r = tid
  ∧ payment_status r = pending.
Proof.
  intros H. apply head_Some_elem_of in H.
  apply list_elem_of_filter in H as [[? ?] ?]. done.
Qed.

(** C2.  A confirm call on a pending, unexpired request in which a step of
    the atomic unit fails is answered with a failure and leaves every table
    as it was: the request is still the pending one, the account is
    untouched, no transaction record and no receipt have been added.  In
    this code the first step, the completed-status update, fails in every
    run (it is a call of [query]), before anything is written, and the
    [catch] of [transaction] rolls back; so every such call ends in this
    way, whatever else the store refuses. *)
Theorem C2_failed_confirm_leaves_no_partial_state
    (fault : stmt → bool) req e d r :
  head (select_pending (default "" (cb_transaction_id (body req))) d) = Some r →
  now e ≤ expires_at r →
  let res := upi_confirm fault req e d in
  (∀ data, res.1 ≠ Json200 data)
  ∧ res.2 = d
  ∧ head (select_pending (default "" (cb_transaction_id (body req))) res.2)
    = Some r
  ∧ payment_status r = pending
  ∧ members res.2 = members d
  ∧ transactions res.2 = transactions d
  ∧ payment_receipts res.2 = payment_receipts d
  ∧ (∀ r0, r0 ∈ upi_payment_requests res.2 → payment_status r0 = completed →
           r0 ∈ upi_payment_requests d).
Proof.
  intros Hr Hexp res. subst res. rewrite upi_confirm_unchanged.
  split_and!; try done.
  - intros data. apply upi_confirm_not_200.
  - by apply head_select_pending in Hr as (_ & _ & ?).
Qed.

Lemma C2_witness :
  let res := upi_confirm no_fault (sample_confirm 2 "KCS10007") (Env 2000 5)
               sample_pending_db in
  (∀ data, res.1 ≠ Json200 data) ∧ res.2 = sample_pending_db.
Proof.
  intros res.
  destruct (C2_failed_confirm_leaves_no_partial_state no_fault
              (sample_confirm 2 "KCS10007") (Env 2000 5) sample_pending_db
              sample_pending_request)
    as (H1 & H2 & _); [reflexivity|cbn; lia|].
  by split.
Defined.

(** ** Requests that have left the pending status *)

Lemma NoDup_fmap_eq {A B} (f : A → B) (l : list A) x y :
  NoDup (f <$> l) → x ∈ l → y ∈ l → f x = f y → x = y.
Proof.
  induction l as [|a l IH]; intros Hnd Hx Hy Hxy.
  { by apply elem_of_nil in Hx. }
  rewrite fmap_cons in Hnd. apply NoDup_cons in Hnd as [Ha Hnd].
  apply elem_of_cons in Hx as [->|Hx]; apply elem_of_cons in Hy as [->|Hy];
    auto.
  - destruct Ha. rewrite Hxy. by apply list_elem_of_fmap_2.
  - destruct Ha. rewrite <- Hxy. by apply list_elem_of_fmap_2.
Qed.

Lemma select_pending_nil tid d :
  (∀ r0, r0 ∈ upi_payment_requests d → transaction_id r0 = tid →
         payment_status r0 ≠ pending) →
  select_pending tid d = [].
Proof.
  intros H. unfold select_pending.
  destruct (filter _ _) as [|r0 l] eqn:E; [done|].
  assert (r0 ∈ filter (λ r, transaction_id r = tid ∧ payment_status r = pending)
                      (upi_payment_requests d)) as Hin.
  { rewrite E. by left. }
  apply list_elem_of_filter in Hin as [[Ht Hp] Hin].
  by destruct (H r0 Hin Ht).
Qed.

Lemma upi_confirm_not_pending (fault : stmt → bool) req e d :
  select_pending (default "" (cb_transaction_id (body req))) d = [] →
  let res := upi_confirm fault req e d in
  (∀ data, res.1 ≠ Json200 data) ∧ res.2 = d
  ∧ (validate_confirm (body req) = [] → (∀ s, fault s = false) →
     res.1 = Json500 "Payment request not found or already processed").
Proof.
  intros Hsel res. subst res. split_and!.
  - intros data. apply upi_confirm_not_200.
  - apply upi_confirm_unchanged.
  - intros Hv Hf.
    destruct (upi_confirm_valid fault req e d Hv) as (msg & -> & Hmsg).
    cbn. rewrite (Hmsg Hf), Hsel. done.
Qed.

(** C3.  With transaction identifiers unique (the UNIQUE key of the schema),
    a confirm call for a transaction identifier whose request is no longer
    pending (completed, expired, failed) does not succeed and changes no
    table: no second transaction record, no second receipt, no account
    update; when the store works the answer carries the message "Payment
    request not found or already processed".  In particular, after a
    successful confirm every further confirm of the same transaction
    identifier fails in that way.  (The first part is decided by the
    lookup; in this code no confirm call is answered with 200, so that the
    second part has no instance.) *)
Theorem C3_confirm_rejects_processed_request (d : db) (tid : string) :
  unique_transaction_ids d →
  (∀ (fault : stmt → bool) req e r,
     cb_transaction_id (body req) = Some tid →
     r ∈ upi_payment_requests d → transaction_id r = tid →
     payment_status r ≠ pending →
     let res := upi_confirm fault req e d in
     (∀ data, res.1 ≠ Json200 data) ∧ res.2 = d
     ∧ (validate_confirm (body req) = [] → (∀ s, fault s = false) →
        res.1 = Json500 "Payment request not found or already processed"))
  ∧ (∀ (fault1 fault2 : stmt → bool) req1 req2 e1 e2 data1,
       cb_transaction_id (body req1) = Some tid →
       cb_transaction_id (body req2) = Some tid →
       (upi_confirm fault1 req1 e1 d).1 = Json200 data1 →
       let d1 := (upi_confirm fault1 req1 e1 d).2 in
       let res := upi_confirm fault2 req2 e2 d1 in
       (∀ data, res.1 ≠ Json200 data) ∧ res.2 = d1
       ∧ (validate_confirm (body req2) = [] → (∀ s, fault2 s = false) →
          res.1 = Json500 "Payment request not found or already processed")).
Proof.
  intros Hu. split.
  - intros fault req e r Htid Hin Ht Hst.
    apply upi_confirm_not_pending. rewrite Htid. cbn.
    apply select_pending_nil. intros r0 Hin0 Ht0.
    assert (r0 = r) as -> by (eapply NoDup_fmap_eq; eauto; congruence).
    done.
  - intros fault1 fault2 req1 req2 e1 e2 data1 Htid1 Htid2 H200.
    by destruct (upi_confirm_not_200 fault1 req1 e1 d data1).
Qed.

(** The completed request of the sample data is confirmed once more. *)
Lemma C3_witness :
  let res := upi_confirm no_fault (sample_confirm 1 "KCS1692611234567")
               (Env 3000 6) sample_pending_db in
  res.1 = Json500 "Payment request not found or already processed"
  ∧ res.2 = sample_pending_db.
Proof.
  intros res.
  destruct (C3_confirm_rejects_processed_request sample_pending_db
              "KCS1692611234567") as [H _].
  { unfold unique_transaction_ids. apply (bool_decide_unpack _).
    by vm_compute. }
  destruct (H no_fault (sample_confirm 1 "KCS1692611234567") (Env 3000 6)
              sample_completed_request)
    as (_ & H2 & H3); [reflexivity|by left|reflexivity|done|].
  split; [|exact H2]. apply H3; reflexivity.
Defined.

(** ** Confirming after the expiry *)

(** C4 (what the code does).  A confirm call on a pending request at or
    after its expiry fails, but not as the expiry: past the expiry the
    UPDATE to 'expired' is a call of [query], which throws before the
    [throw new Error('Payment request has expired')] is reached, and at the
    very instant of the expiry the test [new Date() > expires_at] is false
    and the call runs into the [query] of the completed-status update.  The
    answer of a working store is the 500 "query is not a function"; every
    table is as before the call and the request is still the pending one,
    not an expired one. *)
Theorem C4_expired_confirm_leaves_request_pending
    (fault : stmt → bool) req e d r :
  validate_confirm (body req) = [] →
  head (select_pending (default "" (cb_transaction_id (body req))) d) = Some r →
  expires_at r ≤ now e →
  let res := upi_confirm fault req e d in
  (∀ data, res.1 ≠ Json200 data)
  ∧ res.2 = d
  ∧ head (select_pending (default "" (cb_transaction_id (body req))) res.2)
    = Some r
  ∧ payment_status r = pending
  ∧ ((∀ s, fault s = false) → res.1 = Json500 "query is not a function").
Proof.
  intros Hv Hr Hexp res. subst res. rewrite upi_confirm_unchanged.
  split_and!; try done.
  - intros data. apply upi_confirm_not_200.
  - by apply head_select_pending in Hr as (_ & _ & ?).
  - intros Hf.
    destruct (upi_confirm_valid fault req e d Hv) as (msg & -> & Hmsg).
    cbn. by rewrite (Hmsg Hf), Hr.
Qed.

Lemma C4_witness :
  let res := upi_confirm no_fault (sample_confirm 2 "KCS10007")
               (Env 2000000 5) sample_pending_db in
  res.1 = Json500 "query is not a function"
  ∧ payment_status <$> upi_payment_requests res.2 = [completed; pending].
Proof.
  intros res.
  destruct (C4_expired_confirm_leaves_request_pending no_fault
              (sample_confirm 2 "KCS10007") (Env 2000000 5) sample_pending_db
              sample_pending_request)
    as (_ & H2 & _ & _ & H5); [reflexivity|reflexivity|cbn; lia|].
  split; [by apply H5|]. fold res in H2. by rewrite H2.
Defined.

(** ** Generate, then confirm *)

(** C5 (what the code does).  A generate call with a valid amount, purpose
    and description is answered with the 500 "Failed to generate UPI
    payment request" and stores no request; no confirm call that follows
    it, whatever identifier it carries, is answered with 200, and none
    adds a transaction record or changes a member row: balance, share
    count and share value are what they were. *)
Theorem C5_generate_then_confirm_records_nothing
    (fault1 fault2 : stmt → bool) greq e1 d creq e2 :
  validate_generate (body greq) = [] →
  let g := upi_generate fault1 greq e1 d in
  let c := upi_confirm fault2 creq e2 g.2 in
  g = (Json500 "Failed to generate UPI payment request", d)
  ∧ (∀ data, c.1 ≠ Json200 data)
  ∧ c.2 = d
  ∧ transactions c.2 = transactions d
  ∧ members c.2 = members d
  ∧ upi_payment_requests c.2 = upi_payment_requests d.
Proof.
  intros Hv g c. subst c g. rewrite upi_generate_valid by done. cbn [snd].
  rewrite upi_confirm_unchanged. split_and!; try done.
  intros data. apply upi_confirm_not_200.
Qed.

(** Member 2 asks to buy shares for 250.00 at time 1000 and confirms the
    identifier the handler would have issued. *)
Lemma C5_witness :
  let g := upi_generate no_fault (sample_request (rupees 250) "share_purchase")
             (Env 1000 7) sample_db in
  let c := upi_confirm no_fault (sample_confirm 2 "KCS10007") (Env 2000 5) g.2 in
  g.1 = Json500 "Failed to generate UPI payment request"
  ∧ c.1 = Json500 "Payment request not found or already processed"
  ∧ transactions c.2 = []
  ∧ (λ m, (balance m, share_count m)) <$> members c.2 !! 2 = Some (0, 2).
Proof.
  intros g c.
  destruct (C5_generate_then_confirm_records_nothing no_fault no_fault
              (sample_request (rupees 250) "share_purchase") (Env 1000 7)
              sample_db (sample_confirm 2 "KCS10007") (Env 2000 5))
    as (Hg & _ & Hc & _); [reflexivity|].
  fold g in Hg. fold g c in Hc. rewrite Hg, Hc.
  split_and!; reflexivity.
Defined.

(** ** Validation of generate *)

(** [isLength] counts characters, not bytes. *)
Example validator_length_counts_characters :
  validator_length "UPI123456789" = 12%nat
  ∧ validator_length "éé€" = 3%nat ∧ String.length "éé€" = 7%nat.
Proof. by vm_compute. Qed.

Lemma parse_purpose_None s : parse_purpose s = None ↔ s ∉ purposes.
Proof.
  unfold parse_purpose, purposes. rewrite !not_elem_of_cons.
  repeat case_bool_decide; split; try done; try tauto.
  intros _. split_and!; try done. apply not_elem_of_nil.
Qed.

Lemma valid_amount_false a :
  valid_amount a = false ↔ ∀ amt, a = Some amt → amt < rupees 1.
Proof.
  unfold valid_amount. destruct a as [h|]; [|done].
  rewrite bool_decide_eq_false. split.
  - intros H amt [= <-]. lia.
  - intros H. specialize (H h eq_refl). lia.
Qed.

Lemma valid_purpose_false s : valid_purpose s = false ↔ s ∉ purposes.
Proof.
  unfold valid_purpose. rewrite bool_decide_eq_false, <- parse_purpose_None.
  rewrite <- eq_None_not_Some. done.
Qed.

Lemma valid_description_false o :
  valid_description o = false ↔
  ∃ s, o = Some s ∧ (500 < validator_length s)%nat.
Proof.
  unfold valid_description. destruct o as [s|].
  - rewrite bool_decide_eq_false. split.
    + intros H. exists s. split; [done|lia].
    + intros (s' & [= <-] & H). lia.
  - split; [done|]. by intros (s & [=] & _).
Qed.

Lemma validate_generate_not_nil b :
  validate_generate b ≠ [] ↔
  valid_amount (gb_amount b) = false ∨ valid_purpose (gb_purpose b) = false
  ∨ valid_description (gb_description b) = false.
Proof.
  rewrite validate_generate_nil.
  destruct (valid_amount _), (valid_purpose _), (valid_description _);
    split; try tauto; intros H; try (by destruct H); try (by intros (? & ? & ?)).
  all: by destruct H as [|[|]].
Qed.

(** C10 (what the code does).  Generate answers with a validation error
    exactly when the amount is absent or below 1.00, or the purpose is not
    one of the five enumerated values, or the description is longer than
    500 characters: a positive amount below 1.00 is refused, under the
    message "Amount must be greater than 0".  Every other request, whatever
    its amount from 1.00 on, stops at the [query] of the INSERT: it is
    answered with the 500 "Failed to generate UPI payment request".  No
    call is answered with 200 and none stores a request. *)
Theorem C10_generate_validates_amount_from_one
    (fault : stmt → bool) req e d :
  let res := upi_generate fault req e d in
  ((∃ errors, res.1 = Json400 errors) ↔
   (∀ amt, gb_amount (body req) = Some amt → amt < rupees 1)
   ∨ gb_purpose (body req) ∉ purposes
   ∨ (∃ s, gb_description (body req) = Some s
           ∧ (500 < validator_length s)%nat))
  ∧ ((∃ errors, res.1 = Json400 errors)
     ∨ res.1 = Json500 "Failed to generate UPI payment request")
  ∧ (∀ data, res.1 ≠ Json200 data)
  ∧ res.2 = d.
Proof.
  intros res. subst res.
  rewrite <- valid_amount_false, <- valid_purpose_false,
    <- valid_description_false, <- validate_generate_not_nil.
  destruct (decide (validate_generate (body req) = [])) as [Hv|Hv].
  - rewrite upi_generate_valid by done. cbn. split_and!; try done; [|by right].
    split; [by intros [errors [=]]|done].
  - rewrite upi_generate_400 by done. cbn. split_and!; try done; [|by eauto].
    split; [done|by eauto].
Qed.

(** An amount of 0.50 is positive and the purpose is valid, yet the request
    is refused by the validator; an amount of 1.00 passes the validator and
    is answered with a 500; neither is stored. *)
Example half_rupee_is_refused :
  0 < 50
  ∧ "deposit" ∈ purposes
  ∧ valid_description None = true
  ∧ upi_generate no_fault (sample_request 50 "deposit") (Env 1000 7) sample_db
    = (Json400 ["Amount must be greater than 0"], sample_db)
  ∧ upi_generate no_fault (sample_request (rupees 1) "deposit") (Env 1000 7)
      sample_db
    = (Json500 "Failed to generate UPI payment request", sample_db).
Proof.
  split_and!; try reflexivity.
  unfold purposes. repeat first [by left | right].
Qed.

(** ** Receipts *)

Lemma elem_of_select_receipt num mid d row :
  row ∈ select_receipt num mid d ↔
  ∃ pr m upr,
    pr ∈ payment_receipts d ∧ receipt_number pr = num ∧ rc_member_id pr = mid
    ∧ members d !! rc_member_id pr = Some m
    ∧ upr ∈ upi_payment_requests d ∧ request_id upr = payment_request_id pr
    ∧ row = ReceiptRow pr (first_name m) (last_name m) (account_number m)
              (phone m) (transaction_id upr) (purpose upr) (description upr).
Proof.
  unfold select_receipt. rewrite list_elem_of_bind. split.
  - intros (pr & Hrow & Hpr).
    apply list_elem_of_filter in Hpr as [[Hn Hm] Hpr].
    apply list_elem_of_bind in Hrow as (m & Hrow & Hmem).
    apply list_elem_of_bind in Hrow as (upr & Hrow & Hupr).
    apply list_elem_of_filter in Hupr as [Hid Hupr].
    apply list_elem_of_singleton in Hrow.
    exists pr, m, upr. split_and!; try done.
    destruct (members d !! rc_member_id pr) as [m0|]; cbn in Hmem.
    + by apply list_elem_of_singleton in Hmem as ->.
    + by apply elem_of_nil in Hmem.
  - intros (pr & m & upr & Hpr & Hn & Hm & Hmem & Hupr & Hid & ->).
    exists pr. split; [|by apply list_elem_of_filter].
    apply list_elem_of_bind. exists m. split.
    + apply list_elem_of_bind. exists upr.
      split; [by apply list_elem_of_singleton|by apply list_elem_of_filter].
    + rewrite Hmem. cbn. by apply list_elem_of_singleton.
Qed.

Lemma owned_receipt_iff num mid d :
  owned_receipt num mid d ↔
  ∃ pr, pr ∈ payment_receipts d ∧ receipt_number pr = num
        ∧ rc_member_id pr = mid.
Proof. unfold owned_receipt. rewrite Exists_exists. naive_solver. Qed.

Lemma get_receipt_run (fault : stmt → bool) req d :
  fault SelectReceipt = false →
  get_receipt fault req d
    = (match head (select_receipt (body req) (user_id req) d) with
       | Some row =>
           match receipt_data (rr_receipt row) with
           | None => Json200 row
           | Some _ => Json500 "Failed to retrieve receipt"
           end
       | None => Json404 "Receipt not found"
       end, d).
Proof.
  intros Hf.
  unfold get_receipt, try_catch, bind, current, getOne, ret, JSON_parse, throw.
  rewrite Hf. cbn. destruct (head _) as [row|]; [|done].
  destruct row as [[] ? ? ? ? ? ? ?]. cbn.
  by destruct receipt_data0.
Qed.

Lemma with_receipt_data_None row :
  receipt_data (rr_receipt row) = None → with_receipt_data row None = row.
Proof. destruct row as [[] ? ? ? ? ? ? ?]. cbn. by intros ->. Qed.

(** C7 (what the code does).  Retrieving a receipt changes no table, and
    for an unknown number or a receipt of another member the answer of a
    working store is the 404 "Receipt not found", which carries no receipt
    data.  A 200 answer carries a receipt of the store that has the
    requested number and belongs to the requesting member, but it is given
    only for a receipt whose [receipt_data] is NULL, and for such a receipt
    of the caller it is given: when the receipt of the caller holds a JSON
    object, which is what the confirm handler and the sample data store
    there, the handler hands the object the driver has already decoded to
    [JSON.parse], which throws, and the answer is the 500 "Failed to
    retrieve receipt". *)
Theorem C7_receipt_by_number_and_owner (fault : stmt → bool) req d :
  let res := get_receipt fault req d in
  res.2 = d
  ∧ (∀ row, res.1 = Json200 row →
       rr_receipt row ∈ payment_receipts d
       ∧ receipt_number (rr_receipt row) = body req
       ∧ rc_member_id (rr_receipt row) = user_id req
       ∧ receipt_data (rr_receipt row) = None)
  ∧ (fault SelectReceipt = false →
     (¬ owned_receipt (body req) (user_id req) d →
      res.1 = Json404 "Receipt not found")
     ∧ (receipts_reference d →
        owned_receipt (body req) (user_id req) d →
        ((∀ pr, pr ∈ payment_receipts d → receipt_number pr = body req →
                rc_member_id pr = user_id req → is_Some (receipt_data pr)) →
         res.1 = Json500 "Failed to retrieve receipt")
        ∧ ((∀ pr, pr ∈ payment_receipts d → receipt_number pr = body req →
                  rc_member_id pr = user_id req → receipt_data pr = None) →
           ∃ row, res.1 = Json200 row))).
Proof.
  intros res. subst res. split; [apply get_receipt_unchanged|].
  rewrite owned_receipt_iff. split.
  - intros row.
    unfold get_receipt, try_catch, bind, current, getOne, ret, JSON_parse, throw.
    destruct (fault SelectReceipt); [done|]. cbn.
    destruct (head _) as [row'|] eqn:Hh; [|done].
    destruct (receipt_data (rr_receipt row')) eqn:Hdata; [done|].
    cbn. intros [= <-]. rewrite with_receipt_data_None by done.
    apply head_Some_elem_of in Hh.
    apply elem_of_select_receipt in Hh
      as (pr & m & upr & Hpr & Hn & Hm & _ & _ & _ & ->).
    done.
  - intros Hf. rewrite get_receipt_run by done. cbn [fst]. split.
    + intros Hnone.
      destruct (head _) as [row|] eqn:Hh; [|done].
      apply head_Some_elem_of in Hh.
      apply elem_of_select_receipt in Hh
        as (pr & m & upr & Hpr & Hn & Hm & _ & _ & _ & ->).
      destruct Hnone. by exists pr.
    + intros Href (pr & Hpr & Hn & Hm).
      destruct (head _) as [row|] eqn:Hh.
      * apply head_Some_elem_of in Hh.
        apply elem_of_select_receipt in Hh
          as (pr' & m & upr & Hpr' & Hn' & Hm' & _ & _ & _ & ->).
        cbn. split; intros Hdata.
        -- by destruct (Hdata pr' Hpr' Hn' Hm') as [o ->].
        -- rewrite (Hdata pr' Hpr' Hn' Hm'). by eexists.
      * exfalso. apply head_None in Hh.
        unfold receipts_reference in Href. rewrite Forall_forall in Href.
        destruct (Href pr Hpr) as [[m Hmem] Hreq].
        apply list_elem_of_fmap in Hreq as (upr & Hid & Hupr).
        assert (ReceiptRow pr (first_name m) (last_name m) (account_number m)
                  (phone m) (transaction_id upr) (purpose upr) (description upr)
                ∈ select_receipt (body req) (user_id req) d) as Hin.
        { apply elem_of_select_receipt. exists pr, m, upr. split_and!; done. }
        rewrite Hh in Hin. by apply elem_of_nil in Hin.
Qed.

(** The receipt of the sample data: its owner, member 1, is answered with a
    500, member 2 with the 404. *)
Lemma C7_witness :
  (get_receipt no_fault (Request 1 "RCP1692611234567890") sample_db).1
  = Json500 "Failed to retrieve receipt"
  ∧ (get_receipt no_fault (Request 2 "RCP1692611234567890") sample_db).1
    = Json404 "Receipt not found".
Proof.
  split.
  - destruct (C7_receipt_by_number_and_owner no_fault
                (Request 1 "RCP1692611234567890") sample_db) as (_ & _ & H).
    destruct (H eq_refl) as [_ H500].
    destruct H500 as [H500 _].
    + unfold receipts_reference. apply (bool_decide_unpack _). by vm_compute.
    + unfold owned_receipt. apply (bool_decide_unpack _). by vm_compute.
    + apply H500. intros pr Hpr _ _.
      apply list_elem_of_singleton in Hpr as ->. by eexists.
  - destruct (C7_receipt_by_number_and_owner no_fault
                (Request 2 "RCP1692611234567890") sample_db) as (_ & _ & H).
    destruct (H eq_refl) as [H404 _]. apply H404.
    unfold owned_receipt. intros Hown.
    apply (bool_decide_pack _) in Hown. by vm_compute in Hown.
Defined.

(** ** The caller of confirm *)

(** C8 (what the code does).  The confirm handler never reads the identity
    of the caller: two calls that differ only in the authenticated member
    give the same answer and the same tables.  But a pending, unexpired
    request is confirmed for no caller: with a valid body and a working
    store the answer is the 500 "query is not a function" and no account
    is updated. *)
Theorem C8_confirm_does_not_depend_on_caller
    (fault : stmt → bool) caller1 caller2 b e d :
  upi_confirm fault (Request caller1 b) e d
    = upi_confirm fault (Request caller2 b) e d
  ∧ (∀ r,
       validate_confirm b = [] → (∀ s, fault s = false) →
       head (select_pending (default "" (cb_transaction_id b)) d) = Some r →
       now e ≤ expires_at r →
       upi_confirm fault (Request caller1 b) e d
         = (Json500 "query is not a function", d)).
Proof.
  split; [reflexivity|].
  intros r Hv Hf Hr Hexp.
  destruct (upi_confirm_valid fault (Request caller1 b) e d Hv)
    as (msg & -> & Hmsg).
  cbn [body] in Hmsg. by rewrite (Hmsg Hf), Hr.
Qed.

Lemma C8_witness :
  upi_confirm no_fault (sample_confirm 1 "KCS10007") (Env 2000 5)
    sample_pending_db
  = upi_confirm no_fault (sample_confirm 2 "KCS10007") (Env 2000 5)
      sample_pending_db
  ∧ upi_confirm no_fault (sample_confirm 1 "KCS10007") (Env 2000 5)
      sample_pending_db
    = (Json500 "query is not a function", sample_pending_db).
Proof.
  destruct (C8_confirm_does_not_depend_on_caller no_fault 1 2
              (ConfirmBody (Some "KCS10007") None None) (Env 2000 5)
              sample_pending_db) as [Heq H].
  split; [exact Heq|].
  apply (H sample_pending_request);
    [reflexivity|by intros s|reflexivity|cbn; lia].
Defined.

(** ** Reading the status *)

Lemma upi_generate_appends (fault : stmt → bool) req e d :
  ∃ l, upi_payment_requests (upi_generate fault req e d).2
       = upi_payment_requests d ++ l.
Proof. exists []. by rewrite upi_generate_unchanged, app_nil_r. Qed.

(** C9.  Reading the status of a request changes no table, however often
    it is repeated; the handler does not consult the clock, so a request
    of the caller that is still stored as pending is reported as 'pending'
    at any time, also after its expiry.  Of the other handlers, the receipt
    lookup changes no table and generate only appends a request: no stored
    request changes its status outside confirm.  (In this code generate
    appends nothing.) *)
Theorem C9_status_read_changes_nothing (fault : stmt → bool) req d (n : nat) :
  (get_status fault req d).2 = d
  ∧ Nat.iter n (λ d', (get_status fault req d').2) d = d
  ∧ (∀ r (t : Z),
       head (filter (λ r, transaction_id r = body req
                          ∧ member_id r = user_id req)
               (upi_payment_requests d)) = Some r →
       payment_status r = pending → expires_at r < t →
       fault SelectStatus = false →
       (get_status fault req d).1
         = Json200 (StatusRow (transaction_id r) (amount r) (purpose r) pending
                      (expires_at r) (paid_at r) (receipt_generated r)))
  ∧ (∀ rreq, (get_receipt fault rreq d).2 = d)
  ∧ (∀ greq e, ∃ l, upi_payment_requests (upi_generate fault greq e d).2
                     = upi_payment_requests d ++ l).
Proof.
  split_and!;
    [apply get_status_unchanged| |
     |intros; apply get_receipt_unchanged
     |intros; apply upi_generate_appends].
  - induction n as [|n IH]; [done|].
    by rewrite Nat.iter_succ, IH, get_status_unchanged.
  - intros r t Hr Hp _ Hf.
    unfold get_status, try_catch, bind, current, getOne, ret, select_status.
    rewrite Hf. cbn.
    destruct (filter _ _) as [|r0 l]; [done|].
    cbn in *. injection Hr as ->. by rewrite Hp.
Qed.

Lemma C9_witness :
  (get_status no_fault (Request 2 "KCS10007") sample_pending_db).1
  = Json200 (StatusRow "KCS10007" (rupees 250) share_purchase pending 1801000
               None false).
Proof.
  destruct (C9_status_read_changes_nothing no_fault (Request 2 "KCS10007")
              sample_pending_db 0) as (_ & _ & H & _).
  apply (H sample_pending_request 2000000);
    [reflexivity|reflexivity|reflexivity|reflexivity].
Defined.

(** ** Two confirm calls for one request *)

(** C6 (what the code does).  Two confirm calls for the same pending
    request never both succeed, because neither does: in the schedule
    [confirm_race], in which both lookups find the request pending, both
    callbacks throw at their first [query] and nothing is written, and
    served one after the other both calls are answered with a failure.
    The member is not credited twice; it is not credited at all, the
    request is still pending, and no completed request, transaction record
    or receipt results. *)
Theorem C6_racing_confirms_both_fail (fault : stmt → bool) req1 req2 e1 e2 d r :
  cb_transaction_id (body req2) = cb_transaction_id (body req1) →
  head (select_pending (default "" (cb_transaction_id (body req1))) d) = Some r →
  (∃ err1 err2,
     confirm_race fault (body req1) e1 (body req2) e2 d
       = (Thrown err1, Thrown err2, d)
     ∧ (fault SelectPendingRequest = false →
        err1 = TypeError "query is not a function"
        ∧ err2 = TypeError "query is not a function"))
  ∧ (let c1 := upi_confirm fault req1 e1 d in
     let c2 := upi_confirm fault req2 e2 c1.2 in
     (∀ data, c1.1 ≠ Json200 data) ∧ (∀ data, c2.1 ≠ Json200 data)
     ∧ c2.2 = d
     ∧ head (select_pending (default "" (cb_transaction_id (body req1))) c2.2)
       = Some r).
Proof.
  intros Htid Hr. split.
  - unfold confirm_race.
    destruct (confirm_callback_thrown fault (body req1) e1 d d)
      as (err1 & -> & Herr1).
    cbn [fst snd].
    destruct (confirm_callback_thrown fault (body req2) e2 d d)
      as (err2 & -> & Herr2).
    cbn [fst snd]. exists err1, err2. split; [done|].
    intros Hf. rewrite (Herr1 Hf), (Herr2 Hf), Htid, Hr. done.
  - cbv zeta. rewrite !upi_confirm_unchanged. split_and!; [| |done|done].
    + intros data. apply upi_confirm_not_200.
    + intros data. apply upi_confirm_not_200.
Qed.

Lemma C6_witness :
  confirm_race no_fault (ConfirmBody (Some "KCS10007") None None) (Env 2000 5)
    (ConfirmBody (Some "KCS10007") None None) (Env 2000 6) sample_pending_db
  = (Thrown (TypeError "query is not a function"),
     Thrown (TypeError "query is not a function"), sample_pending_db).
Proof.
  destruct (C6_racing_confirms_both_fail no_fault
              (sample_confirm 1 "KCS10007") (sample_confirm 2 "KCS10007")
              (Env 2000 5) (Env 2000 6) sample_pending_db
              sample_pending_request)
    as ((err1 & err2 & Hrace & Herr) & _);
    [reflexivity|reflexivity|].
  destruct (Herr eq_refl) as [-> ->]. exact Hrace.
Defined.

(** ** Generate: what is stored *)

(** X1.  Generate writes to the table of payment requests only: whatever
    the input and whatever the store refuses, the member rows (and so every
    balance), the receipts and the transaction records are the ones of
    before the call. *)
Theorem generate_touches_only_requests (fault : stmt → bool) req e d :
  let res := upi_generate fault req e d in
  members res.2 = members d
  ∧ payment_receipts res.2 = payment_receipts d
  ∧ transactions res.2 = transactions d.
Proof. cbv zeta. by rewrite upi_generate_unchanged. Qed.



(** ** Sequences of requests *)

(** X4.  No request to the payments router changes a table: after any
    sequence of generate, confirm, history, receipt and status calls,
    whatever they carry and whatever the store refuses on the way, the
    members, the payment requests with the counter of their key, the
    receipts and the transaction records are exactly the ones of before. *)
Theorem serve_all_changes_nothing (cs : list call) (d : db) :
  serve_all cs d = d.
Proof.
  unfold serve_all. revert d.
  induction cs as [|c cs IH]; intros d; [done|].
  cbn. by rewrite serve_unchanged.
Qed.

(** ** What a confirm call leaves alone *)

(** X6.  A confirm call changes at most the row of the member the pending
    request belongs to and the request with its [request_id]: every other
    member row and every other request is afterwards what it was, no
    request is added or removed and the [AUTO_INCREMENT] counter stands.
    (In this code these two rows are left as they were as well.) *)
Theorem confirm_leaves_other_rows (fault : stmt → bool) req e d r :
  head (select_pending (default "" (cb_transaction_id (body req))) d) = Some r →
  let res := upi_confirm fault req e d in
  (∀ mid, mid ≠ member_id r → members res.2 !! mid = members d !! mid)
  ∧ (∀ r0, r0 ∈ upi_payment_requests d → request_id r0 ≠ request_id r →
           r0 ∈ upi_payment_requests res.2)
  ∧ length (upi_payment_requests res.2) = length (upi_payment_requests d)
  ∧ next_request_id res.2 = next_request_id d.
Proof. intros Hr res. subst res. by rewrite upi_confirm_unchanged. Qed.

Lemma confirm_leaves_other_rows_witness :
  members (upi_confirm no_fault (sample_confirm 2 "KCS10007") (Env 2000 5)
             sample_pending_db).2 !! 1 = Some sample_member_1.
Proof.
  destruct (confirm_leaves_other_rows no_fault (sample_confirm 2 "KCS10007")
              (Env 2000 5) sample_pending_db sample_pending_request)
    as (H & _); [reflexivity|].
  rewrite H; [reflexivity|]. cbn. lia.
Defined.

(** ** Who may read a status *)

Lemma get_status_run (fault : stmt → bool) req d :
  fault SelectStatus = false →
  get_status fault req d
    = (match head (select_status (body req) (user_id req) d) with
       | Some row => Json200 row
       | None => Json404 "Payment request not found"
       end, d).
Proof.
  intros Hf. unfold get_status, try_catch, bind, current, getOne, ret.
  rewrite Hf. cbn. by destruct (head _).
Qed.

(** X10.  The status route answers by ownership: a 200 always carries the
    projection of a stored request that has the requested transaction
    identifier and belongs to the caller, and when the caller owns no
    request with that identifier (unknown identifier, or a request of
    another member) the answer is the 404 "Payment request not found". *)
Theorem status_only_for_the_owner (fault : stmt → bool) req d :
  let res := get_status fault req d in
  (∀ row, res.1 = Json200 row →
     ∃ r, r ∈ upi_payment_requests d
          ∧ transaction_id r = body req ∧ member_id r = user_id req
          ∧ row = StatusRow (transaction_id r) (amount r) (purpose r)
                    (payment_status r) (expires_at r) (paid_at r)
                    (receipt_generated r))
  ∧ (fault SelectStatus = false →
     (∀ r, r ∈ upi_payment_requests d → transaction_id r = body req →
           member_id r ≠ user_id req) →
     res.1 = Json404 "Payment request not found").
Proof.
  intros res. subst res. split.
  - intros row. unfold get_status, try_catch, bind, current, getOne, ret.
    destruct (fault SelectStatus); [done|]. cbn.
    destruct (head _) as [row'|] eqn:Hh; [|done]. cbn. intros [= <-].
    apply head_Some_elem_of in Hh. unfold select_status in Hh.
    apply list_elem_of_fmap in Hh as (r & -> & Hr).
    apply list_elem_of_filter in Hr as [[? ?] ?]. by exists r.
  - intros Hf Hnone. rewrite get_status_run by done. cbn.
    destruct (select_status _ _ _) as [|row rows] eqn:Hrows; [done|].
    exfalso. assert (row ∈ select_status (body req) (user_id req) d) as Hin
      by (rewrite Hrows; by left).
    unfold select_status in Hin.
    apply list_elem_of_fmap in Hin as (r & _ & Hr).
    apply list_elem_of_filter in Hr as [[Ht Hm] Hin]. by apply (Hnone r).
Qed.

Lemma status_only_for_the_owner_witness :
  (get_status no_fault (Request 1 "KCS10007") sample_pending_db).1
  = Json404 "Payment request not found".
Proof.
  destruct (status_only_for_the_owner no_fault (Request 1 "KCS10007")
              sample_pending_db) as [_ H].
  apply H; [reflexivity|].
  intros r Hin Ht. vm_compute in Hin.
  apply elem_of_cons in Hin as [->|Hin]; [discriminate Ht|].
  apply list_elem_of_singleton in Hin as ->. cbn. lia.
Defined.

(** ** Validation of confirm *)

Lemma conj_iff (A B C D : Prop) : (A ↔ B) → (C ↔ D) → (A ∧ C ↔ B ∧ D).
Proof. tauto. Qed.

Lemma validate_confirm_nil b :
  validate_confirm b = [] ↔
  (∃ s, cb_transaction_id b = Some s ∧ s ≠ "")
  ∧ (∀ s, cb_bank_reference_number b = Some s → (5 ≤ validator_length s)%nat)
  ∧ (∀ s, cb_payment_method b = Some s → (validator_length s ≤ 50)%nat).
Proof.
  unfold validate_confirm. rewrite !app_nil.
  apply conj_iff; [|apply conj_iff].
  - destruct (cb_transaction_id b) as [t|].
    + case_bool_decide as Ht; split; try done.
      * intros (s & [= <-] & Hs). done.
      * intros _. by exists t.
    + split; [done|]. by intros (s & [=] & _).
  - destruct (cb_bank_reference_number b) as [r|].
    + case_bool_decide as Hr; split; try done.
      * by intros _ s [= <-].
      * intros H. specialize (H r eq_refl). lia.
    + split; [|done]. by intros _ s [=].
  - destruct (cb_payment_method b) as [m|].
    + case_bool_decide as Hm; split; try done.
      * by intros _ s [= <-].
      * intros H. specialize (H m eq_refl). lia.
    + split; [|done]. by intros _ s [=].
Qed.

(** X11.  Confirm answers with a validation error exactly when the
    transaction identifier is absent or empty, or a bank reference is given
    that is shorter than 5 characters, or a payment method is given that is
    longer than 50 characters, characters counted as [isLength] counts
    them; such a call changes no table, whatever the state of the
    request. *)
Theorem confirm_validation (fault : stmt → bool) req e d :
  let res := upi_confirm fault req e d in
  ((∃ errors, res.1 = Json400 errors) ↔
   ¬ ((∃ s, cb_transaction_id (body req) = Some s ∧ s ≠ "")
      ∧ (∀ s, cb_bank_reference_number (body req) = Some s →
              (5 ≤ validator_length s)%nat)
      ∧ (∀ s, cb_payment_method (body req) = Some s →
              (validator_length s ≤ 50)%nat)))
  ∧ ((∃ errors, res.1 = Json400 errors) → res.2 = d).
Proof.
  intros res. subst res. rewrite <- validate_confirm_nil.
  split; [|intros _; apply upi_confirm_unchanged].
  destruct (decide (validate_confirm (body req) = [])) as [Hv|Hv].
  - split; [|by intros []].
    intros [errors H].
    by destruct (upi_confirm_valid_not_400 fault req e d errors Hv).
  - rewrite upi_confirm_400 by done. split; [done|]. intros _. by eexists.
Qed.

(** A bank reference of three characters that fill seven bytes. *)
Lemma confirm_validation_witness :
  let res := upi_confirm no_fault
               (Request 2 (ConfirmBody (Some "KCS10007") (Some "éé€") None))
               (Env 2000 5) sample_pending_db in
  (∃ errors, res.1 = Json400 errors) ∧ res.2 = sample_pending_db.
Proof.
  intros res.
  destruct (confirm_validation no_fault
              (Request 2 (ConfirmBody (Some "KCS10007") (Some "éé€") None))
              (Env 2000 5) sample_pending_db) as [[_ H] H2].
  assert (∃ errors, res.1 = Json400 errors) as Herr.
  { apply H. intros (_ & Hb & _). specialize (Hb "éé€" eq_refl).
    vm_compute in Hb. lia. }
  split; [exact Herr|by apply H2].
Defined.

(** ** The payment history *)

(** X19.  The history route fails on every request: its SELECT is a call of
    [query], so whatever page and limit are asked for and whatever the
    store holds, the answer is the 500 "Failed to retrieve payment history"
    and no table is changed. *)
Theorem history_always_fails (fault : stmt → bool) req d :
  get_history fault req d = (Json500 "Failed to retrieve payment history", d).
Proof. reflexivity. Qed.

(** ** Confirm: unknown identifiers *)

(** X22.  A confirm call for a transaction identifier that no stored
    request carries is answered with a failure and changes no table; when
    the body is valid and the store works, the answer is the 500 "Payment
    request not found or already processed". *)
Theorem confirm_unknown_transaction (fault : stmt → bool) req e d :
  (∀ r, r ∈ upi_payment_requests d →
        transaction_id r ≠ default "" (cb_transaction_id (body req))) →
  let res := upi_confirm fault req e d in
  res.2 = d
  ∧ (∀ data, res.1 ≠ Json200 data)
  ∧ (validate_confirm (body req) = [] → (∀ s, fault s = false) →
     res.1 = Json500 "Payment request not found or already processed").
Proof.
  intros Hnone res.
  assert (select_pending (default "" (cb_transaction_id (body req))) d = [])
    as Hsel.
  { apply select_pending_nil. intros r Hin Ht. by destruct (Hnone r Hin). }
  destruct (upi_confirm_not_pending fault req e d Hsel) as (H1 & H2 & H3).
  by split_and!.
Qed.

Lemma confirm_unknown_transaction_witness :
  upi_confirm no_fault (sample_confirm 2 "KCS99999") (Env 2000 5)
    sample_pending_db
  = (Json500 "Payment request not found or already processed",
     sample_pending_db).
Proof.
  destruct (confirm_unknown_transaction no_fault
              (sample_confirm 2 "KCS99999") (Env 2000 5) sample_pending_db)
    as (H1 & _ & H3).
  - intros r Hin. vm_compute in Hin.
    apply elem_of_cons in Hin as [->|Hin]; [cbn; intros [=]|].
    apply list_elem_of_singleton in Hin as ->. cbn. intros [=].
  - rewrite <- H1 at 2. rewrite <- H3; [|reflexivity|done].
    by destruct (upi_confirm _ _ _ _).
Defined.

(** ** Closing a deposit *)

Lemma close_callback_eq (dfault : dstmt → bool) req t b :
  close_callback dfault req t b =
    if dfault SelectActiveDeposit
    then (inl (DepositDatabaseError SelectActiveDeposit), b)
    else match select_active_deposit (cr_deposit_id req) b with
         | [] => (inl DepositNotActive, b)
         | dp :: _ =>
             if dfault UpdateDepositStatus
             then (inl (DepositDatabaseError UpdateDepositStatus), b)
             else if dfault InsertWithdrawal
             then (inl (DepositDatabaseError InsertWithdrawal),
                   sql_close_deposit t (cr_deposit_id req) b)
             else if bool_decide (("TXN" +:+ pretty t)
                                    ∉ (lg_transaction_number <$> ledger b))
             then (inr tt, closed_effect req t dp b)
             else (inl (DepositDatabaseError InsertWithdrawal),
                   sql_close_deposit t (cr_deposit_id req) b)
         end.
Proof.
  unfold close_callback, dbind, execute, dthrow.
  destruct (dfault SelectActiveDeposit); [done|].
  destruct (select_active_deposit _ _) as [|dp rows]; [done|].
  destruct (dfault UpdateDepositStatus); [done|].
  destruct (dfault InsertWithdrawal); [done|].
  unfold sql_insert_ledger. cbn [ledger sql_close_deposit lg_transaction_number].
  by case_bool_decide.
Qed.

Lemma close_audit_eq (dfault : dstmt → bool) req b :
  close_audit dfault req b =
    match cr_user_agent req with
    | None => (inl UndefinedBindParameter, b)
    | Some _ =>
        if dfault InsertAuditLog
        then (inl (DepositDatabaseError InsertAuditLog), b)
        else (inr tt, sql_insert_audit (close_audit_row req) b)
    end.
Proof.
  unfold close_audit, execute, dthrow, close_audit_row.
  destruct (cr_user_agent req); [|done]. by destruct (dfault InsertAuditLog).
Qed.

(** What the close route can leave behind: nothing, or the committed
    closure without its audit entry, or the closure with it. *)
Lemma close_deposit_cases (dfault : dstmt → bool) req t b :
  let res := close_deposit dfault req t b in
  (res.2 = b ∧ ∀ msg, res.1 ≠ Json200 msg)
  ∨ ∃ dp, head (select_active_deposit (cr_deposit_id req) b) = Some dp
          ∧ (dfault UpdateDepositStatus = false
             ∧ dfault InsertWithdrawal = false ∧ dfault DCommit = false
             ∧ ("TXN" +:+ pretty t) ∉ (lg_transaction_number <$> ledger b))
          ∧ ((res.2 = closed_effect req t dp b
              ∧ ∃ msg, res.1 = Json500 msg)
             ∨ (res.2 = sql_insert_audit (close_audit_row req)
                          (closed_effect req t dp b)
                ∧ res.1 = Json200 "Deposit closed successfully"
                ∧ is_Some (cr_user_agent req))).
Proof.
  cbv zeta. destruct (close_deposit dfault req t b) as [r b'] eqn:E.
  cbn [fst snd]. revert E. unfold close_deposit.
  destruct (valid_closure_reason _);
    [|intros [= <- <-]; left; split; [done|intros ?; discriminate]].
  unfold dbind at 1, dep_transaction. rewrite close_callback_eq.
  destruct (dfault DGetConnection);
    [intros [= <- <-]; left; split; [done|intros ?; discriminate]|].
  destruct (dfault DBeginTransaction);
    [intros [= <- <-]; left; split; [done|intros ?; discriminate]|].
  destruct (dfault SelectActiveDeposit);
    [intros [= <- <-]; left; split; [done|intros ?; discriminate]|].
  destruct (select_active_deposit _ _) as [|dp rows];
    [intros [= <- <-]; left; split; [done|intros ?; discriminate]|].
  destruct (dfault UpdateDepositStatus);
    [intros [= <- <-]; left; split; [done|intros ?; discriminate]|].
  destruct (dfault InsertWithdrawal);
    [intros [= <- <-]; left; split; [done|intros ?; discriminate]|].
  case_bool_decide;
    [|intros [= <- <-]; left; split; [done|intros ?; discriminate]].
  destruct (dfault DCommit);
    [intros [= <- <-]; left; split; [done|intros ?; discriminate]|].
  unfold dbind, dret. rewrite close_audit_eq.
  destruct (cr_user_agent req) as [ua|] eqn:Hua.
  - destruct (dfault InsertAuditLog); intros [= <- <-]; right; exists dp;
      (split; [done|]); (split; [done|]); [left|right].
    + split; [done|by eexists].
    + by split_and!.
  - intros [= <- <-]. right. exists dp. split; [done|]. split; [done|].
    left. split; [done|by eexists].
Qed.

(** X14.  Closing a deposit that does not exist or is not active changes
    nothing, not even the audit log, and is answered with a failure; when
    the reason is valid and the store works, the answer is the 500
    "Deposit not found or not active". *)
Theorem close_needs_an_active_deposit (dfault : dstmt → bool) req t b :
  (∀ dp, dp ∈ deposits b → deposit_id dp = cr_deposit_id req →
         dp_status dp ≠ Active) →
  let res := close_deposit dfault req t b in
  res.2 = b
  ∧ (∀ msg, res.1 ≠ Json200 msg)
  ∧ (valid_closure_reason (cr_closure_reason req) = true →
     (∀ s, dfault s = false) →
     res.1 = Json500 "Deposit not found or not active").
Proof.
  intros Hnone res.
  assert (select_active_deposit (cr_deposit_id req) b = []) as Hsel.
  { apply elem_of_nil_inv. intros dp [[Hid Hst] Hin]%list_elem_of_filter.
    by destruct (Hnone dp Hin Hid). }
  destruct (close_deposit_cases dfault req t b) as [[H1 H2]|(dp & Hdp & _)].
  - split_and!; [done|done|]. intros Hv Hf. subst res.
    unfold close_deposit. rewrite Hv.
    unfold dbind at 1, dep_transaction. rewrite close_callback_eq.
    by rewrite !Hf, Hsel.
  - by rewrite Hsel in Hdp.
Qed.

Lemma close_needs_an_active_deposit_witness :
  close_deposit no_dfault (sample_close 2) 5000 sample_bank
  = (Json500 "Deposit not found or not active", sample_bank).
Proof.
  destruct (close_needs_an_active_deposit no_dfault (sample_close 2) 5000
              sample_bank) as (H1 & _ & H3).
  - intros dp Hin Hid. vm_compute in Hin.
    apply elem_of_cons in Hin as [->|Hin]; [discriminate Hid|].
    apply list_elem_of_singleton in Hin as ->. discriminate.
  - rewrite <- H1 at 2. rewrite <- H3; [|reflexivity|done].
    by destruct (close_deposit _ _ _ _).
Defined.

(** X25.  The close route answers with a validation error exactly when the
    closure reason is absent or has fewer than 10 or more than 500
    characters; such a call changes no table and looks at no deposit. *)
Theorem close_validation (dfault : dstmt → bool) req t b :
  let res := close_deposit dfault req t b in
  ((∃ errors, res.1 = Json400 errors) ↔
   ¬ ∃ s, cr_closure_reason req = Some s
          ∧ (10 ≤ validator_length s ≤ 500)%nat)
  ∧ ((∃ errors, res.1 = Json400 errors) → res.2 = b).
Proof.
  cbv zeta. unfold close_deposit, valid_closure_reason.
  destruct (cr_closure_reason req) as [s|].
  - case_bool_decide as Hlen.
    + destruct (dbind _ _ b) as [[err|r] b'] eqn:E.
      * split; [|by intros [errors [=]]].
        split; [by intros [errors [=]]|]. intros []. by exists s.
      * cbn. assert (r = Json200 "Deposit closed successfully") as ->.
        { revert E. unfold dbind, dret.
          destruct (dep_transaction _ _ _) as [[?|?] ?]; [done|].
          destruct (close_audit _ _ _) as [[?|?] ?]; [done|]. by intros [= <- _]. }
        split; [|by intros [errors [=]]].
        split; [by intros [errors [=]]|]. intros []. by exists s.
    + cbn. split; [|done]. split; [|by eexists].
      intros _ (s' & [= <-] & Hs). done.
  - cbn. split; [|done]. split; [|by eexists].
    by intros _ (s' & [=] & _).
Qed.

(** A reason of nine characters. *)
Lemma close_validation_witness :
  let res := close_deposit no_dfault
               (CloseRequest "ADM001" 1 (Some "too short") "127.0.0.1"
                  (Some "Mozilla/5.0")) 5000 sample_bank in
  (∃ errors, res.1 = Json400 errors) ∧ res.2 = sample_bank.
Proof.
  intros res.
  destruct (close_validation no_dfault
              (CloseRequest "ADM001" 1 (Some "too short") "127.0.0.1"
                 (Some "Mozilla/5.0")) 5000 sample_bank) as [[_ H] H2].
  assert (∃ errors, res.1 = Json400 errors) as Herr.
  { apply H. intros (s & [= <-] & Hs). vm_compute in Hs. lia. }
  split; [exact Herr|by apply H2].
Defined.

(** X15.  A close call answered with 200 carried a [User-Agent] header and
    has set every deposit with the given identifier to 'Premature
    Closure', has appended one 'Withdrawal' record over the current
    balance of the deposit with balance-after 0, and one audit entry; it
    has changed no other deposit and has left the stored current balance
    of every deposit, the closed one included, as it was. *)
Theorem close_effect (dfault : dstmt → bool) req t b msg :
  let res := close_deposit dfault req t b in
  res.1 = Json200 msg →
  ∃ dp,
    head (select_active_deposit (cr_deposit_id req) b) = Some dp
    ∧ is_Some (cr_user_agent req)
    ∧ ledger res.2
      = ledger b ++
          [LedgerRow ("TXN" +:+ pretty t) (dp_member_id dp) LWithdrawal
             (current_balance dp) 0 RefDeposit (Some (cr_deposit_id req))
             ("Premature closure - " +:+ default "" (cr_closure_reason req))
             (Some (cr_admin_id req))]
    ∧ audit_logs res.2 = audit_logs b ++ [close_audit_row req]
    ∧ (∀ dp', dp' ∈ deposits res.2 → deposit_id dp' = cr_deposit_id req →
              dp_status dp' = PrematureClosure)
    ∧ (∀ dp', dp' ∈ deposits b → deposit_id dp' ≠ cr_deposit_id req →
              dp' ∈ deposits res.2)
    ∧ current_balance <$> deposits res.2 = current_balance <$> deposits b
    ∧ deposit_id <$> deposits res.2 = deposit_id <$> deposits b.
Proof.
  intros res H200. subst res.
  destruct (close_deposit_cases dfault req t b)
    as [[_ H]|(dp & Hdp & _ & [[_ [m H]]|(-> & _ & Hua)])];
    [by destruct (H msg)|by rewrite H in H200|].
  exists dp. cbn. split_and!; try done.
  - intros dp' (dp0 & -> & Hin)%list_elem_of_fmap Hid.
    revert Hid. by case_bool_decide.
  - intros dp' Hin Hne. apply list_elem_of_fmap. exists dp'.
    split; [|done]. by rewrite bool_decide_eq_false_2.
  - rewrite <- list_fmap_compose. apply list_fmap_ext. intros _ dp0 _.
    cbn. by case_bool_decide.
  - rewrite <- list_fmap_compose. apply list_fmap_ext. intros _ dp0 _.
    cbn. by case_bool_decide.
Qed.

Lemma close_effect_witness :
  let res := close_deposit no_dfault (sample_close 1) 5000 sample_bank in
  dp_status <$> deposits res.2 = [PrematureClosure; Closed]
  ∧ lg_amount <$> ledger res.2 = [rupees 5200]
  ∧ current_balance <$> deposits res.2 = [rupees 5200; 0].
Proof.
  intros res.
  destruct (close_effect no_dfault (sample_close 1) 5000 sample_bank
              "Deposit closed successfully")
    as (dp & Hdp & _ & Hl & _ & _ & _ & Hb & _); [reflexivity|].
  split_and!; [reflexivity| |exact Hb].
  fold res in Hl. rewrite Hl. vm_compute in Hdp. by injection Hdp as <-.
Defined.

(** X16.  A deposit is closed once: after a close call answered with 200,
    every further close call for the same deposit is answered with a
    failure and changes nothing, so no second withdrawal is recorded. *)
Theorem close_twice_fails (dfault1 dfault2 : dstmt → bool) req1 req2 t1 t2 b msg :
  cr_deposit_id req2 = cr_deposit_id req1 →
  (close_deposit dfault1 req1 t1 b).1 = Json200 msg →
  let b1 := (close_deposit dfault1 req1 t1 b).2 in
  let res := close_deposit dfault2 req2 t2 b1 in
  res.2 = b1 ∧ (∀ msg', res.1 ≠ Json200 msg').
Proof.
  intros Hid H200 b1 res.
  assert (select_active_deposit (cr_deposit_id req2) b1 = []) as Hsel.
  { subst b1.
    destruct (close_deposit_cases dfault1 req1 t1 b)
      as [[_ H]|(dp & Hdp & _ & [[_ [m H]]|(-> & _ & _)])];
      [by destruct (H msg)|by rewrite H in H200|].
    apply elem_of_nil_inv. intros dp' [[Hid' Hst] Hin]%list_elem_of_filter.
    cbn in Hin. apply list_elem_of_fmap in Hin as (dp0 & -> & Hin).
    revert Hid' Hst. case_bool_decide; [done|]. intros ?. congruence. }
  destruct (close_deposit_cases dfault2 req2 t2 b1) as [[H1 H2]|(dp & Hdp & _)];
    [done|]. by rewrite Hsel in Hdp.
Qed.

Lemma close_twice_fails_witness :
  let b1 := (close_deposit no_dfault (sample_close 1) 5000 sample_bank).2 in
  let res := close_deposit no_dfault (sample_close 1) 6000 b1 in
  res.2 = b1 ∧ length (ledger res.2) = 1%nat.
Proof.
  intros b1 res.
  destruct (close_twice_fails no_dfault no_dfault (sample_close 1)
              (sample_close 1) 5000 6000 sample_bank
              "Deposit closed successfully") as [H _];
    [reflexivity|reflexivity|].
  split; [exact H|]. fold b1 res in H. rewrite H. reflexivity.
Defined.

(** X17.  The audit entry is written after the commit, outside the
    transaction: when that INSERT fails the call is answered with a 500,
    yet the closure and its withdrawal record are stored and there is no
    audit entry for them. *)
Theorem close_audit_failure_keeps_closure (dfault : dstmt → bool) req t b dp :
  valid_closure_reason (cr_closure_reason req) = true →
  head (select_active_deposit (cr_deposit_id req) b) = Some dp →
  ("TXN" +:+ pretty t) ∉ (lg_transaction_number <$> ledger b) →
  (∀ s, s ≠ InsertAuditLog → dfault s = false) →
  dfault InsertAuditLog = true →
  ∃ msg,
    close_deposit dfault req t b = (Json500 msg, closed_effect req t dp b)
    ∧ audit_logs (closed_effect req t dp b) = audit_logs b
    ∧ (∀ dp', dp' ∈ deposits (closed_effect req t dp b) →
              deposit_id dp' = cr_deposit_id req →
              dp_status dp' = PrematureClosure).
Proof.
  intros Hv Hdp Hfresh Hf Haudit. unfold close_deposit. rewrite Hv.
  unfold dbind at 1, dep_transaction. rewrite close_callback_eq.
  rewrite !Hf by done.
  destruct (select_active_deposit _ _) as [|dp' rows]; [done|].
  injection Hdp as ->. rewrite bool_decide_eq_true_2 by done.
  unfold dbind. rewrite close_audit_eq, Haudit.
  assert (∀ dp', dp' ∈ deposits (closed_effect req t dp b) →
            deposit_id dp' = cr_deposit_id req →
            dp_status dp' = PrematureClosure) as Hclosed.
  { cbn. intros dp' (dp0 & -> & Hin)%list_elem_of_fmap Hid.
    revert Hid. by case_bool_decide. }
  destruct (cr_user_agent req); eexists; split_and!; done.
Qed.

Lemma close_audit_failure_witness :
  let res := close_deposit (λ s, bool_decide (s = InsertAuditLog))
               (sample_close 1) 5000 sample_bank in
  (∃ msg, res.1 = Json500 msg)
  ∧ dp_status <$> deposits res.2 = [PrematureClosure; Closed]
  ∧ audit_logs res.2 = [].
Proof.
  intros res. subst res.
  destruct (close_audit_failure_keeps_closure
              (λ s, bool_decide (s = InsertAuditLog)) (sample_close 1) 5000
              sample_bank
              (DepositRow 1 "SAV001" 1 Savings (rupees 5000) 400 None None 0
                 None Active false (rupees 5200) None None 0))
    as (msg & -> & _ & _).
  - reflexivity.
  - reflexivity.
  - cbn. apply not_elem_of_nil.
  - intros s Hs. by apply bool_decide_eq_false_2.
  - reflexivity.
  - split_and!; [by exists msg|reflexivity|reflexivity].
Defined.

(** X18.  Inside the transaction the closure is all or nothing: when the
    status update, the withdrawal insert (refused by the store, or because
    the transaction number is taken) or the commit fails, the call is
    answered with a failure and every table is as before; the deposit is
    still active. *)
Theorem close_failure_rolls_back (dfault : dstmt → bool) req t b :
  dfault UpdateDepositStatus = true ∨ dfault InsertWithdrawal = true
  ∨ dfault DCommit = true
  ∨ ("TXN" +:+ pretty t) ∈ (lg_transaction_number <$> ledger b) →
  let res := close_deposit dfault req t b in
  res.2 = b ∧ (∀ msg, res.1 ≠ Json200 msg).
Proof.
  intros Hfail res. subst res.
  destruct (close_deposit_cases dfault req t b)
    as [H|(dp & _ & (F1 & F2 & F3 & Hfresh) & _)]; [done|].
  destruct Hfail as [?|[?|[?|?]]]; congruence.
Qed.

Lemma close_failure_rolls_back_witness :
  let res := close_deposit (λ s, bool_decide (s = InsertWithdrawal))
               (sample_close 1) 5000 sample_bank in
  res.2 = sample_bank ∧ dp_status <$> deposits res.2 = [Active; Closed].
Proof.
  intros res.
  destruct (close_failure_rolls_back (λ s, bool_decide (s = InsertWithdrawal))
              (sample_close 1) 5000 sample_bank) as [H _].
  { right. left. reflexivity. }
  fold res in H. split; [exact H|]. rewrite H. reflexivity.
Defined.

(** X24.  A close request that carries no [User-Agent] header is answered
    with a 500 although the store works: the transaction has committed the
    closure and its withdrawal record when the audit INSERT is refused for
    its [undefined] parameter, so the deposit is closed and no audit entry
    is written. *)
Theorem close_without_user_agent (dfault : dstmt → bool) req t b dp :
  valid_closure_reason (cr_closure_reason req) = true →
  head (select_active_deposit (cr_deposit_id req) b) = Some dp →
  ("TXN" +:+ pretty t) ∉ (lg_transaction_number <$> ledger b) →
  (∀ s, dfault s = false) →
  cr_user_agent req = None →
  ∃ msg,
    close_deposit dfault req t b = (Json500 msg, closed_effect req t dp b)
    ∧ audit_logs (closed_effect req t dp b) = audit_logs b
    ∧ (∀ dp', dp' ∈ deposits (closed_effect req t dp b) →
              deposit_id dp' = cr_deposit_id req →
              dp_status dp' = PrematureClosure).
Proof.
  intros Hv Hdp Hfresh Hf Hua. unfold close_deposit. rewrite Hv.
  unfold dbind at 1, dep_transaction. rewrite close_callback_eq.
  rewrite !Hf.
  destruct (select_active_deposit _ _) as [|dp' rows]; [done|].
  injection Hdp as ->. rewrite bool_decide_eq_true_2 by done.
  unfold dbind. rewrite close_audit_eq, Hua.
  eexists. split_and!; [done|done|].
  cbn. intros dp' (dp0 & -> & Hin)%list_elem_of_fmap Hid.
  revert Hid. by case_bool_decide.
Qed.

Lemma close_without_user_agent_witness :
  let res := close_deposit no_dfault (sample_close_no_agent 1) 5000
               sample_bank in
  (∃ msg, res.1 = Json500 msg)
  ∧ dp_status <$> deposits res.2 = [PrematureClosure; Closed]
  ∧ length (ledger res.2) = 1%nat
  ∧ audit_logs res.2 = [].
Proof.
  intros res. subst res.
  destruct (close_without_user_agent no_dfault (sample_close_no_agent 1) 5000
              sample_bank
              (DepositRow 1 "SAV001" 1 Savings (rupees 5000) 400 None None 0
                 None Active false (rupees 5200) None None 0))
    as (msg & -> & _ & _).
  - reflexivity.
  - reflexivity.
  - cbn. apply not_elem_of_nil.
  - done.
  - reflexivity.
  - split_and!; [by exists msg|reflexivity|reflexivity|reflexivity].
Defined.

End Kafal.
